(** * Chatwoot / WooCommerce widget: host messaging bridge and
      identity-resolution pipeline.

    Shallow embedding of [src/components/Dashboard.tsx] and
    [src/components/UserSearch.tsx].  Both are React function components:
    every handler is a closure over the state values of the render that
    created it, and a [setX] call does not change those values, it queues
    an update that is applied to the component state afterwards.  A
    handler is therefore a function from the render it closes over (its
    snapshot) to the list of updates it queues and the I/O it issues. *)

From stdpp Require Import base option list strings gmap.
From Stdlib Require Import ZArith Ascii String.

Set Warnings "-register-all,-clear-no-such-hyp".

Local Open Scope string_scope.
Local Open Scope list_scope.
Local Open Scope Z_scope.

(** ** JavaScript values, as far as the handlers inspect them *)

(** A message payload, and whatever [JSON.parse] returns.  Numbers are
    carried as integers: the components only ask for [typeof] and for
    truthiness of such a value. *)
Inductive JsValue : Type :=
| JUndefined
| JNull
| JBool (b : bool)
| JNum (n : Z)
| JStr (s : string)
| JArr (items : list JsValue)
| JObj (fields : list (string * JsValue)).

Inductive JsType : Type :=
| TyUndefined | TyBoolean | TyNumber | TyString | TyObject.

(** [typeof v]; note [typeof null === 'object']. *)
Definition typeof (v : JsValue) : JsType :=
  match v with
  | JUndefined => TyUndefined
  | JNull => TyObject
  | JBool _ => TyBoolean
  | JNum _ => TyNumber
  | JStr _ => TyString
  | JArr _ => TyObject
  | JObj _ => TyObject
  end.

Definition JsType_eqb (a b : JsType) : bool :=
  match a, b with
  | TyUndefined, TyUndefined | TyBoolean, TyBoolean | TyNumber, TyNumber
  | TyString, TyString | TyObject, TyObject => true
  | _, _ => false
  end.

(** Truthiness, as used by [!x], [x && ...] and [if (x)]. *)
Definition truthy (v : JsValue) : bool :=
  match v with
  | JUndefined | JNull => false
  | JBool b => b
  | JNum n => negb (n =? 0)
  | JStr s => negb (String.eqb s "")
  | JArr _ | JObj _ => true
  end.

(** Own property of an object literal; a later duplicate key wins, as
    in [JSON.parse]. *)
Fixpoint field_from (k : string) (fs : list (string * JsValue))
    (found : JsValue) : JsValue :=
  match fs with
  | [] => found
  | (k', v) :: rest => field_from k rest (if String.eqb k k' then v else found)
  end.

Definition field (k : string) (fs : list (string * JsValue)) : JsValue :=
  field_from k fs JUndefined.

(** [v?.k] for the property names the components read ([data],
    [contact], [email]): [undefined] on [null], [undefined] and on every
    value that has no such own property. *)
Definition opt_get (v : JsValue) (k : string) : JsValue :=
  match v with
  | JObj fs => field k fs
  | _ => JUndefined
  end.

(** [chatwootData?.data?.contact?.email] *)
Definition contact_email (chatwootData : JsValue) : JsValue :=
  opt_get (opt_get (opt_get chatwootData "data") "contact") "email".

(** Whether a state cell holding [old] keeps its identity when [new] is
    stored ([Object.is]): primitives compare by value, while an object
    that arrives in a message or comes out of [JSON.parse] is a fresh
    one. *)
Definition same_value (old new : JsValue) : bool :=
  match old, new with
  | JUndefined, JUndefined | JNull, JNull => true
  | JBool a, JBool b => Bool.eqb a b
  | JNum a, JNum b => a =? b
  | JStr a, JStr b => String.eqb a b
  | _, _ => false
  end.

(** The platform's [JSON.parse]: [None] stands for the [SyntaxError] it
    throws. *)
Class JsonParser := JSON_parse : string → option JsValue.

(** ** The configuration provider: [localStorage] *)

Abbreviation Storage := (gmap string string).

(** [localStorage.getItem(k)] is [ls !! k]; [!x] on its result holds for
    [null] and for the empty string. *)
Definition missing (x : option string) : bool :=
  match x with
  | None => true
  | Some s => String.eqb s ""
  end.

(** What a settled axios promise hands back to the awaiting function. *)
Inductive HttpResult (A : Type) : Type :=
| Resolved (data : A)
| RejectedWithResponse (status : Z) (statusText : string)
| RejectedOther.
Arguments Resolved {A} data.
Arguments RejectedWithResponse {A} status statusText.
Arguments RejectedOther {A}.

(** What a [catch (err)] clause can receive in the two pipelines. *)
Inductive Exn : Type :=
| ConfigurationMissing
    (* new Error('WooCommerce settings are not configured. ...') *)
| AxiosError (response : option (Z * string)).

Definition rejection {A} (r : HttpResult A) : option Exn :=
  match r with
  | Resolved _ => None
  | RejectedWithResponse st txt => Some (AxiosError (Some (st, txt)))
  | RejectedOther => Some (AxiosError None)
  end.

(** ** The search view: [UserSearch.tsx] *)

Module UserSearch.

Record WooCommerceUser : Type := mkUser {
  id : Z;
  email : string;
  username : string;
  first_name : string;
  last_name : string
}.

(** The texts handed to [setError], by the template they come from. *)
Inductive ErrorMsg : Type :=
| ProcessFailed
    (* "Failed to process Chatwoot data. Please try searching manually." *)
| NotFound (queried : JsValue)
    (* `No users found for email: ${email}. ...` *)
| HttpError (status : Z) (statusText : string)
    (* `Error fetching users: ${status} - ${statusText}. ...` *)
| UnknownError.
    (* 'An unexpected error occurred while fetching users. ...' *)

(** The seven [useState] cells, with their initial values below. *)
Record State : Type := mkState {
  searchEmail : JsValue;     (* a string, as far as the input writes it *)
  users : list WooCommerceUser;
  loading : bool;
  error : option ErrorMsg;
  page : Z;
  hasMore : bool;
  chatwootData : JsValue
}.

Definition initial : State :=
  {| searchEmail := JStr ""; users := []; loading := false; error := None;
     page := 1; hasMore := true; chatwootData := JNull |}.

(** A queued state update: a plain value, or an updater function for
    the two cells the component updates functionally. *)
Inductive Update : Type :=
| SetSearchEmail (v : JsValue)
| SetUsers (f : list WooCommerceUser → list WooCommerceUser)
| SetLoading (b : bool)
| SetError (e : option ErrorMsg)
| SetPage (f : Z → Z)
| SetHasMore (b : bool)
| SetChatwootData (v : JsValue).

Definition apply_update (s : State) (u : Update) : State :=
  match u with
  | SetSearchEmail x =>
      mkState x (users s) (loading s) (error s) (page s) (hasMore s) (chatwootData s)
  | SetUsers f =>
      mkState (searchEmail s) (f (users s)) (loading s) (error s) (page s) (hasMore s) (chatwootData s)
  | SetLoading b =>
      mkState (searchEmail s) (users s) b (error s) (page s) (hasMore s) (chatwootData s)
  | SetError e =>
      mkState (searchEmail s) (users s) (loading s) e (page s) (hasMore s) (chatwootData s)
  | SetPage f =>
      mkState (searchEmail s) (users s) (loading s) (error s) (f (page s)) (hasMore s) (chatwootData s)
  | SetHasMore b =>
      mkState (searchEmail s) (users s) (loading s) (error s) (page s) b (chatwootData s)
  | SetChatwootData v =>
      mkState (searchEmail s) (users s) (loading s) (error s) (page s) (hasMore s) v
  end.

Definition apply_updates (s : State) (us : list Update) : State :=
  fold_left apply_update us s.

(** The [axios.get] call of [fetchUsers]. *)
Record Request : Type := mkRequest {
  req_url : string;
  req_username : string;
  req_password : string;
  req_email : JsValue;
  req_per_page : Z;
  req_page : Z
}.

(** [handleChatwootMessage]: the listener's body on [event.data]. *)
Definition handleChatwootMessage `{JsonParser} (data : JsValue) : list Update :=
  let eventData : option JsValue :=
    match data with
    | JStr s => JSON_parse s
    | _ => if JsType_eqb (typeof data) TyObject then Some data else None
    end in
  match eventData with
  | Some eventData => [SetChatwootData eventData]
  | None => [SetError (Some ProcessFailed)]
  end.

(** The updater passed to [setUsers] in the non-empty branch. *)
Definition merge (data prevUsers : list WooCommerceUser) : list WooCommerceUser :=
  let newUsers :=
    List.filter
      (λ newUser, negb (existsb (λ existingUser, id existingUser =? id newUser) prevUsers))
      data in
  prevUsers ++ newUsers.

(** [fetchUsers], the [try] block up to the [await]: the credentials
    check and the request built from the closure's [page]. *)
Definition fetchUsers_request (snap : State) (ls : Storage) (email : JsValue)
    : Exn + Request :=
  let wooCommerceUrl := ls !! "woocommerce_url" in
  let consumerKey := ls !! "woocommerce_consumer_key" in
  let consumerSecret := ls !! "woocommerce_consumer_secret" in
  if missing wooCommerceUrl || missing consumerKey || missing consumerSecret
  then inl ConfigurationMissing
  else inr {| req_url := default "" wooCommerceUrl +:+ "/wp-json/wc/v3/customers";
              req_username := default "" consumerKey;
              req_password := default "" consumerSecret;
              req_email := email;
              req_per_page := 20;
              req_page := page snap |}.

(** ... the [try] block after the [await] resolved, *)
Definition fetchUsers_resolved (email : JsValue) (data : list WooCommerceUser)
    : list Update :=
  if Z.of_nat (List.length data) =? 0
  then [SetError (Some (NotFound email)); SetUsers (λ _, [])]
  else [SetUsers (merge data); SetHasMore (Z.of_nat (List.length data) =? 20)].

(** ... the [catch] clause, *)
Definition fetchUsers_catch (err : Exn) : list Update :=
  match err with
  | AxiosError (Some (status, statusText)) => [SetError (Some (HttpError status statusText))]
  | _ => [SetError (Some UnknownError)]
  end.

(** ... and the [finally] clause. *)
Definition fetchUsers_finally : list Update := [SetLoading false].

(** The synchronous part of a [fetchUsers(email)] call: everything up
    to the first [await], or the whole call when the check throws. *)
Definition fetchUsers_start (snap : State) (ls : Storage) (email : JsValue)
    : list Update * option Request :=
  let entry := [SetLoading true; SetError None] in
  match fetchUsers_request snap ls email with
  | inl err => (entry ++ fetchUsers_catch err ++ fetchUsers_finally, None)
  | inr rq => (entry, Some rq)
  end.

(** The rest of the call, run when the request settles. *)
Definition fetchUsers_settle (email : JsValue) (res : HttpResult (list WooCommerceUser))
    : list Update :=
  match res with
  | Resolved data => fetchUsers_resolved email data ++ fetchUsers_finally
  | RejectedWithResponse st txt =>
      fetchUsers_catch (AxiosError (Some (st, txt))) ++ fetchUsers_finally
  | RejectedOther => fetchUsers_catch (AxiosError None) ++ fetchUsers_finally
  end.

(** [handleSearch]: the form's submit handler.  [fetchUsers] is the
    closure of the same render, so it still sees that render's [page]. *)
Definition handleSearch (snap : State) (ls : Storage) : list Update * option Request :=
  let '(us, rq) := fetchUsers_start snap ls (searchEmail snap) in
  ([SetUsers (λ _, []); SetPage (λ _, 1)] ++ us, rq).

(** [loadMore]: the button's click handler. *)
Definition loadMore : list Update * option Request :=
  ([SetPage (λ prevPage, prevPage + 1)], None).

(** The effect with dependency list [[chatwootData]], run after a
    render in which that cell changed. *)
Definition chatwootData_effect (snap : State) (ls : Storage)
    : list Update * option Request :=
  let e := contact_email (chatwootData snap) in
  if truthy e
  then
    let '(us, rq) := fetchUsers_start snap ls e in
    (SetSearchEmail e :: us, rq)
  else ([], None).

(** *** The component as a transition system *)

(** What can happen to the mounted component. *)
Inductive Event : Type :=
| Message (data : JsValue)          (* a "message" event on the window *)
| Typing (s : string)               (* onChange of the input *)
| Submit                            (* onSubmit of the form *)
| LoadMore                          (* onClick of "Load More" *)
| Settle (i : nat) (res : HttpResult (list WooCommerceUser)).
                                    (* the i-th pending request settles *)

(** The component, its surroundings, and a log of the requests sent.
    A pending [fetchUsers] call keeps its [email] argument. *)
Record World : Type := mkWorld {
  state : State;
  storage : Storage;
  pending : list JsValue;
  sent : list Request
}.

Definition mount (ls : Storage) : World :=
  {| state := initial; storage := ls; pending := []; sent := [] |}.

(** Apply what a handler queued and record the request it issued. *)
Definition commit (w : World) (email : JsValue) (out : list Update * option Request)
    : World :=
  let s' := apply_updates (state w) (fst out) in
  match snd out with
  | Some rq => mkWorld s' (storage w) (pending w ++ [email]) (sent w ++ [rq])
  | None => mkWorld s' (storage w) (pending w) (sent w)
  end.

Definition stores_new_context (s : State) (us : list Update) : bool :=
  existsb (λ u, match u with
                | SetChatwootData v => negb (same_value (chatwootData s) v)
                | _ => false
                end) us.

Definition step `{JsonParser} (w : World) (ev : Event) : World :=
  match ev with
  | Message data =>
      let us := handleChatwootMessage data in
      let w' := commit w JUndefined (us, None) in
      if stores_new_context (state w) us
      then commit w' (contact_email (chatwootData (state w')))
                  (chatwootData_effect (state w') (storage w'))
      else w'
  | Typing s => commit w JUndefined ([SetSearchEmail (JStr s)], None)
  | Submit => commit w (searchEmail (state w)) (handleSearch (state w) (storage w))
  | LoadMore =>
      if hasMore (state w) && negb (loading (state w))
      then commit w JUndefined loadMore
      else w                              (* the button is not rendered *)
  | Settle i res =>
      match pending w !! i with
      | Some email =>
          mkWorld (apply_updates (state w) (fetchUsers_settle email res))
                  (storage w) (delete i (pending w)) (sent w)
      | None => w
      end
  end.

Definition run `{JsonParser} (w : World) (evs : list Event) : World :=
  fold_left step evs w.

(** *** The accumulator over a sequence of pages *)

(** One results page arriving at a pending [fetchUsers(email)] call. *)
Definition absorb (email : JsValue) (s : State) (data : list WooCommerceUser) : State :=
  apply_updates s (fetchUsers_settle email (Resolved data)).

Definition absorb_all (email : JsValue) (s : State) (pages : list (list WooCommerceUser))
    : State :=
  fold_left (absorb email) pages s.

(** The accumulator as the specification words it: of the customers in
    arrival order, keep each one whose id has not arrived before. *)
Fixpoint first_arrivals (seen : gset Z) (arriving : list WooCommerceUser)
    : list WooCommerceUser :=
  match arriving with
  | [] => []
  | u :: rest =>
      if bool_decide (id u ∈ seen) then first_arrivals seen rest
      else u :: first_arrivals ({[id u]} ∪ seen) rest
  end.

Definition ids (l : list WooCommerceUser) : list Z := map id l.

(** Sample data: [sample_page first n] holds the [n] customers with ids
    [first], [first + 1], ... *)
Definition sample_user (i : Z) : WooCommerceUser :=
  mkUser i "user@example.com" "user" "First" "Last".

Definition sample_page (first : Z) (n : nat) : list WooCommerceUser :=
  map (λ k, sample_user (first + Z.of_nat k)) (seq 0 n).

(** *** Predicates on executions *)

(** An event whose results page, if it carries one, names no id
    twice. *)
Definition well_paged (ev : Event) : Prop :=
  match ev with
  | Settle _ (Resolved data) => NoDup (ids data)
  | _ => True
  end.

(** [rq] is the request [fetchUsers] builds from the three settings
    held in [ls], all of them present and non-empty. *)
Definition built_from (ls : Storage) (rq : Request) : Prop :=
  ∃ url key secret,
    ls !! "woocommerce_url" = Some url
    ∧ ls !! "woocommerce_consumer_key" = Some key
    ∧ ls !! "woocommerce_consumer_secret" = Some secret
    ∧ url ≠ "" ∧ key ≠ "" ∧ secret ≠ ""
    ∧ req_url rq = url +:+ "/wp-json/wc/v3/customers"
    ∧ req_username rq = key
    ∧ req_password rq = secret.

(** ... and asks for 20 customers of a page numbered from 1. *)
Definition request_in_order (ls : Storage) (rq : Request) : Prop :=
  built_from ls rq ∧ req_per_page rq = 20 ∧ 1 ≤ req_page rq.

(** The request of a configured view for the first page of [a@b.com]. *)
Definition first_page_request : Request :=
  mkRequest "https://shop.example/wp-json/wc/v3/customers" "ck_1" "cs_1"
            (JStr "a@b.com") 20 1.

(** A page in which the API repeats an id, *)
Definition twin_page : list WooCommerceUser :=
  [mkUser 7 "a@b.com" "a" "A" "B"; mkUser 7 "a@b.com" "a2" "A" "B"].

(** and two pages that share the customer with id 3. *)
Definition overlapping_pages : list (list WooCommerceUser) :=
  [sample_page 1 3; sample_page 3 2].

End UserSearch.

(** ** The detail view: [Dashboard.tsx] *)

Module Dashboard.

Record WooCommerceCustomer : Type := mkCustomer {
  id : Z;
  email : string;
  first_name : string;
  last_name : string
}.

Record WooCommerceOrder : Type := mkOrder {
  order_id : Z;        (* [id] of the order *)
  number : string;
  status : string;
  total : string;
  date_created : string
}.

(** The texts handed to [setError] ... *)
Inductive BridgeError : Type :=
| ProcessFailed   (* "Failed to process Chatwoot data. Please try again." *)
| NoResponse      (* "No response received from Chatwoot. Please try again." *)
| RequestFailed.  (* "Failed to request Chatwoot data. Please try again." *)

(** ... and the only one handed to [setSearchError]. *)
Inductive SearchError : Type :=
| SearchFailed.
    (* "Failed to search WooCommerce data. Please check your settings and try again." *)

Record State : Type := mkState {
  chatwootData : JsValue;
  error : option BridgeError;
  isLoading : bool;
  customer : option WooCommerceCustomer;
  orders : list WooCommerceOrder;
  searchError : option SearchError
}.

Definition initial : State :=
  {| chatwootData := JNull; error := None; isLoading := false;
     customer := None; orders := []; searchError := None |}.

Inductive Update : Type :=
| SetChatwootData (v : JsValue)
| SetError (e : option BridgeError)
| SetIsLoading (b : bool)
| SetCustomer (c : option WooCommerceCustomer)
| SetOrders (os : list WooCommerceOrder)
| SetSearchError (e : option SearchError).

Definition apply_update (s : State) (u : Update) : State :=
  match u with
  | SetChatwootData v =>
      mkState v (error s) (isLoading s) (customer s) (orders s) (searchError s)
  | SetError e =>
      mkState (chatwootData s) e (isLoading s) (customer s) (orders s) (searchError s)
  | SetIsLoading b =>
      mkState (chatwootData s) (error s) b (customer s) (orders s) (searchError s)
  | SetCustomer c =>
      mkState (chatwootData s) (error s) (isLoading s) c (orders s) (searchError s)
  | SetOrders os =>
      mkState (chatwootData s) (error s) (isLoading s) (customer s) os (searchError s)
  | SetSearchError e =>
      mkState (chatwootData s) (error s) (isLoading s) (customer s) (orders s) e
  end.

Definition apply_updates (s : State) (us : list Update) : State :=
  fold_left apply_update us s.

(** [handleChatwootMessage]: the listener's body on [event.data]. *)
Definition handleChatwootMessage `{JsonParser} (data : JsValue) : list Update :=
  let eventData : option JsValue :=
    match data with
    | JStr s => JSON_parse s
    | _ => if JsType_eqb (typeof data) TyObject then Some data else None
    end in
  match eventData with
  | Some eventData => [SetChatwootData eventData; SetError None; SetIsLoading false]
  | None => [SetError (Some ProcessFailed); SetIsLoading false]
  end.

(** The callback given to [setTimeout] in [fetchChatwootData].  Its
    [chatwootData] is the constant of the render in which
    [fetchChatwootData] was created, so the callback is a function of
    that captured value. *)
Definition timeout_callback (captured : JsValue) : list Update :=
  if negb (truthy captured)
  then [SetError (Some NoResponse); SetIsLoading false]
  else [].

(** What [fetchChatwootData] leaves behind besides state updates: the
    signal posted to the parent frame and the timer it armed. *)
Record Outbound : Type := mkOutbound {
  posted : option string;
  timer : option JsValue    (* the captured [chatwootData] *)
}.

(** [fetchChatwootData]; [post_throws] says whether [postMessage]
    raised. *)
Definition fetchChatwootData (snap : State) (post_throws : bool)
    : list Update * Outbound :=
  let entry := [SetIsLoading true; SetError None] in
  if post_throws
  then (entry ++ [SetError (Some RequestFailed); SetIsLoading false],
        mkOutbound None None)
  else (entry,
        mkOutbound (Some "chatwoot-dashboard-app:fetch-info")
                   (Some (chatwootData snap))).

(** The constants a running [searchWooCommerceData] call holds after
    its credentials check. *)
Record Credentials : Type := mkCredentials {
  wooCommerceUrl : string;
  consumerKey : string;
  consumerSecret : string
}.

Inductive Request : Type :=
| GetCustomers (c : Credentials) (email : JsValue)
    (* GET `${wooCommerceUrl}/wp-json/wc/v3/customers`, params { email } *)
| GetOrders (c : Credentials) (customer_id : Z).
    (* GET `${wooCommerceUrl}/wp-json/wc/v3/orders`, params { customer } *)

(** [searchWooCommerceData], the [try] block up to the first [await]. *)
Definition search_request (ls : Storage) (email : JsValue) : Exn + Credentials :=
  let wooCommerceUrl := ls !! "woocommerce_url" in
  let consumerKey := ls !! "woocommerce_consumer_key" in
  let consumerSecret := ls !! "woocommerce_consumer_secret" in
  if missing wooCommerceUrl || missing consumerKey || missing consumerSecret
  then inl ConfigurationMissing
  else inr (mkCredentials (default "" wooCommerceUrl) (default "" consumerKey)
                          (default "" consumerSecret)).

(** The [catch] clause: one message whatever was thrown. *)
Definition search_catch (err : Exn) : list Update :=
  [SetSearchError (Some SearchFailed)].

(** The synchronous part of [searchWooCommerceData(email)]. *)
Definition search_start (ls : Storage) (email : JsValue)
    : list Update * option (Credentials * Request) :=
  let entry := [SetSearchError None] in
  match search_request ls email with
  | inl err => (entry ++ search_catch err, None)
  | inr c => (entry, Some (c, GetCustomers c email))
  end.

(** From the settled customers request to the second [await]. *)
Definition search_customers_settled (c : Credentials)
    (res : HttpResult (list WooCommerceCustomer)) : list Update * option Request :=
  match res with
  | Resolved data =>
      match data with
      | first :: _ => ([SetCustomer (Some first)], Some (GetOrders c (id first)))
      | [] => ([SetCustomer None; SetOrders []], None)
      end
  | RejectedWithResponse st txt => (search_catch (AxiosError (Some (st, txt))), None)
  | RejectedOther => (search_catch (AxiosError None), None)
  end.

(** From the settled orders request to the end of the call. *)
Definition search_orders_settled (res : HttpResult (list WooCommerceOrder))
    : list Update :=
  match res with
  | Resolved data => [SetOrders data]
  | RejectedWithResponse st txt => search_catch (AxiosError (Some (st, txt)))
  | RejectedOther => search_catch (AxiosError None)
  end.

(** The effect with dependency list [[chatwootData]]. *)
Definition chatwootData_effect (snap : State) (ls : Storage)
    : list Update * option (Credentials * Request) :=
  let e := contact_email (chatwootData snap) in
  if truthy e then search_start ls e else ([], None).

(** [renderWooCommerceData]: which of its three blocks is shown. *)
Inductive Panel : Type :=
| ShowError (e : SearchError)
| ShowNoCustomer
| ShowCustomer (c : WooCommerceCustomer) (os : list WooCommerceOrder).

Definition renderWooCommerceData (s : State) : Panel :=
  match searchError s with
  | Some e => ShowError e
  | None =>
      match customer s with
      | None => ShowNoCustomer
      | Some c => ShowCustomer c (orders s)
      end
  end.

(** *** The component as a transition system *)

Inductive Event : Type :=
| Message (data : JsValue)          (* a "message" event on the window *)
| ClickFetch (post_throws : bool)   (* onClick of "Fetch Chatwoot Data" *)
| Timeout (i : nat)                 (* the i-th armed timer fires *)
| SettleCustomers (i : nat) (res : HttpResult (list WooCommerceCustomer))
| SettleOrders (i : nat) (res : HttpResult (list WooCommerceOrder)).
                                    (* the i-th running search is resumed *)

(** Where a running [searchWooCommerceData] call is suspended. *)
Inductive Pending : Type :=
| AwaitCustomers (c : Credentials)
| AwaitOrders.

(** An error text put on display. *)
Inductive Report : Type :=
| BridgeReport (e : BridgeError)
| SearchReport (e : SearchError).

Definition reports_of (us : list Update) : list Report :=
  omap (λ u, match u with
             | SetError (Some e) => Some (BridgeReport e)
             | SetSearchError (Some e) => Some (SearchReport e)
             | _ => None
             end) us.

(** The component, its surroundings, and logs of what it sent to the
    commerce API, posted to the host, and reported as an error. *)
Record World : Type := mkWorld {
  state : State;
  storage : Storage;
  pending : list Pending;
  timers : list JsValue;
  sent : list Request;
  posts : list string;
  reported : list Report
}.

Definition mount (ls : Storage) : World :=
  {| state := initial; storage := ls; pending := []; timers := [];
     sent := []; posts := []; reported := [] |}.

(** Apply queued updates, logging the errors among them. *)
Definition commit (w : World) (us : list Update) : World :=
  mkWorld (apply_updates (state w) us) (storage w) (pending w) (timers w)
          (sent w) (posts w) (reported w ++ reports_of us).

Definition with_pending (w : World) (ps : list Pending) (rq : option Request) : World :=
  mkWorld (state w) (storage w) ps (timers w)
          (sent w ++ option_list rq) (posts w) (reported w).

Definition with_outbound (w : World) (o : Outbound) : World :=
  mkWorld (state w) (storage w) (pending w) (timers w ++ option_list (timer o))
          (sent w) (posts w ++ option_list (posted o)) (reported w).

Definition without_timer (w : World) (i : nat) : World :=
  mkWorld (state w) (storage w) (pending w) (delete i (timers w))
          (sent w) (posts w) (reported w).

Definition stores_new_context (s : State) (us : list Update) : bool :=
  existsb (λ u, match u with
                | SetChatwootData v => negb (same_value (chatwootData s) v)
                | _ => false
                end) us.

Definition start_search (w : World) (out : list Update * option (Credentials * Request))
    : World :=
  match snd out with
  | Some (c, rq) =>
      with_pending (commit w (fst out)) (pending w ++ [AwaitCustomers c]) (Some rq)
  | None => commit w (fst out)
  end.

Definition step `{JsonParser} (w : World) (ev : Event) : World :=
  match ev with
  | Message data =>
      let us := handleChatwootMessage data in
      let w' := commit w us in
      if stores_new_context (state w) us
      then start_search w' (chatwootData_effect (state w') (storage w'))
      else w'
  | ClickFetch post_throws =>
      if isLoading (state w) then w       (* the button is disabled *)
      else
        let '(us, o) := fetchChatwootData (state w) post_throws in
        with_outbound (commit w us) o
  | Timeout i =>
      match timers w !! i with
      | Some captured => without_timer (commit w (timeout_callback captured)) i
      | None => w
      end
  | SettleCustomers i res =>
      match pending w !! i with
      | Some (AwaitCustomers c) =>
          let '(us, rq) := search_customers_settled c res in
          with_pending (commit w us)
            (match rq with
             | Some _ => <[i := AwaitOrders]> (pending w)
             | None => delete i (pending w)
             end) rq
      | _ => w
      end
  | SettleOrders i res =>
      match pending w !! i with
      | Some AwaitOrders =>
          with_pending (commit w (search_orders_settled res)) (delete i (pending w)) None
      | _ => w
      end
  end.

Definition run `{JsonParser} (w : World) (evs : list Event) : World :=
  fold_left step evs w.

(** *** One resolution attempt, start to end

    [searchWooCommerceData(email)] run against the answers the commerce
    API gives to its requests: the updates it queues, in order, and the
    requests it sends.  The call reads no state cell, so this is all it
    does whatever happens in between. *)
Definition searchWooCommerceData (ls : Storage) (email : JsValue)
    (customers : HttpResult (list WooCommerceCustomer))
    (orders_api : Request → HttpResult (list WooCommerceOrder))
    : list Update * list Request :=
  match search_start ls email with
  | (us0, None) => (us0, [])
  | (us0, Some (c, rq1)) =>
      match search_customers_settled c customers with
      | (us1, None) => (us0 ++ us1, [rq1])
      | (us1, Some rq2) =>
          (us0 ++ us1 ++ search_orders_settled (orders_api rq2), [rq1; rq2])
      end
  end.

(** *** The context panel *)




(** *** Predicates on executions *)

(** The credentials a request carries. *)
Definition credentials_of (rq : Request) : Credentials :=
  match rq with
  | GetCustomers c _ => c
  | GetOrders c _ => c
  end.

(** [c] holds the three settings of [ls], all present and non-empty. *)
Definition read_from (ls : Storage) (c : Credentials) : Prop :=
  ls !! "woocommerce_url" = Some (wooCommerceUrl c)
  ∧ ls !! "woocommerce_consumer_key" = Some (consumerKey c)
  ∧ ls !! "woocommerce_consumer_secret" = Some (consumerSecret c)
  ∧ wooCommerceUrl c ≠ "" ∧ consumerKey c ≠ "" ∧ consumerSecret c ≠ "".

Definition pending_read_from (ls : Storage) (p : Pending) : Prop :=
  match p with
  | AwaitCustomers c => read_from ls c
  | AwaitOrders => True
  end.

(** How many times the timeout text was put on display. *)
Definition timeouts_reported (rs : list Report) : nat :=
  List.length (List.filter (λ r, match r with
                                 | BridgeReport NoResponse => true
                                 | _ => false
                                 end) rs).

(** Sample data: the customer of the spec's scenario, the credentials
    read from [configured], and an API whose orders endpoint is down. *)
Definition customer_7 : WooCommerceCustomer := mkCustomer 7 "a@b.com" "A" "B".

Definition shop : Credentials := mkCredentials "https://shop.example" "ck_1" "cs_1".

Definition orders_down : Request → HttpResult (list WooCommerceOrder) :=
  λ _, RejectedWithResponse 500 "Internal Server Error".

(** Three orders of customer 7, and an API that returns them. *)
Definition three_orders : list WooCommerceOrder :=
  [mkOrder 103 "103" "processing" "12.50" "2024-03-01T10:00:00";
   mkOrder 102 "102" "completed" "40.00" "2024-02-01T10:00:00";
   mkOrder 101 "101" "completed" "7.99" "2024-01-01T10:00:00"].

Definition orders_up : Request → HttpResult (list WooCommerceOrder) :=
  λ rq, match rq with
        | GetOrders _ 7 => Resolved three_orders
        | _ => Resolved []
        end.

End Dashboard.

(** ** A JSON reader to run the handlers on concrete messages

    The handlers are stated over any [JsonParser].  This one accepts the
    JSON grammar with integer number literals and the two-character
    escapes (no fractions, exponents or [\u] escapes, which it rejects). *)

Module Json.

Definition dquote : ascii := Eval cbv in ascii_of_nat 34.
Definition backslash : ascii := Eval cbv in ascii_of_nat 92.

Definition is_ws (c : ascii) : bool :=
  let n := nat_of_ascii c in
  (n =? 32)%nat || (n =? 9)%nat || (n =? 10)%nat || (n =? 13)%nat.

Fixpoint skip_ws (cs : list ascii) : list ascii :=
  match cs with
  | c :: rest => if is_ws c then skip_ws rest else cs
  | [] => []
  end.

Definition digit_of (c : ascii) : option Z :=
  let n := nat_of_ascii c in
  if (48 <=? n)%nat && (n <=? 57)%nat then Some (Z.of_nat (n - 48)) else None.

Fixpoint digits (cs : list ascii) (acc : Z) : Z * list ascii :=
  match cs with
  | c :: rest =>
      match digit_of c with
      | Some d => digits rest (10 * acc + d)
      | None => (acc, cs)
      end
  | [] => (acc, [])
  end.

(** [-]? ( 0 | [1-9][0-9]* ) *)
Definition parse_int (cs : list ascii) : option (Z * list ascii) :=
  let '(neg, body) :=
    match cs with
    | c :: rest => if Ascii.eqb c "-" then (true, rest) else (false, cs)
    | [] => (false, [])
    end in
  match body with
  | c :: rest =>
      match digit_of c with
      | Some 0 => Some (0, rest)
      | Some d => let '(n, rest') := digits rest d in
                  Some (if neg : bool then - n else n, rest')
      | None => None
      end
  | [] => None
  end.

Definition unescape (c : ascii) : option ascii :=
  if Ascii.eqb c dquote then Some dquote
  else if Ascii.eqb c backslash then Some backslash
  else if Ascii.eqb c "/" then Some "/"%char
  else if Ascii.eqb c "n" then Some (ascii_of_nat 10)
  else if Ascii.eqb c "t" then Some (ascii_of_nat 9)
  else if Ascii.eqb c "r" then Some (ascii_of_nat 13)
  else if Ascii.eqb c "b" then Some (ascii_of_nat 8)
  else if Ascii.eqb c "f" then Some (ascii_of_nat 12)
  else None.

(** The characters of a string literal after its opening quote. *)
Fixpoint parse_chars (cs : list ascii) : option (string * list ascii) :=
  match cs with
  | [] => None
  | c :: rest =>
      if Ascii.eqb c dquote then Some (EmptyString, rest)
      else if Ascii.eqb c backslash then
        match rest with
        | e :: rest' =>
            match unescape e, parse_chars rest' with
            | Some x, Some (s, rest'') => Some (String x s, rest'')
            | _, _ => None
            end
        | [] => None
        end
      else if (nat_of_ascii c <? 32)%nat then None
      else match parse_chars rest with
           | Some (s, rest') => Some (String c s, rest')
           | None => None
           end
  end.

Fixpoint keyword (kw cs : list ascii) : option (list ascii) :=
  match kw, cs with
  | [], _ => Some cs
  | k :: kw', c :: rest => if Ascii.eqb k c then keyword kw' rest else None
  | _ :: _, [] => None
  end.

Fixpoint parse_value (fuel : nat) (cs : list ascii) : option (JsValue * list ascii) :=
  match fuel with
  | O => None
  | S fuel' =>
      match skip_ws cs with
      | [] => None
      | c :: rest =>
          if Ascii.eqb c "n" then r ← keyword (list_ascii_of_string "ull") rest; Some (JNull, r)
          else if Ascii.eqb c "t" then r ← keyword (list_ascii_of_string "rue") rest; Some (JBool true, r)
          else if Ascii.eqb c "f" then r ← keyword (list_ascii_of_string "alse") rest; Some (JBool false, r)
          else if Ascii.eqb c dquote then '(s, r) ← parse_chars rest; Some (JStr s, r)
          else if Ascii.eqb c "[" then
            match skip_ws rest with
            | c' :: rest' =>
                if Ascii.eqb c' "]" then Some (JArr [], rest')
                else '(vs, r) ← parse_elements fuel' rest; Some (JArr vs, r)
            | [] => None
            end
          else if Ascii.eqb c "{" then
            match skip_ws rest with
            | c' :: rest' =>
                if Ascii.eqb c' "}" then Some (JObj [], rest')
                else '(fs, r) ← parse_members fuel' rest; Some (JObj fs, r)
            | [] => None
            end
          else '(n, r) ← parse_int (c :: rest); Some (JNum n, r)
      end
  end
with parse_elements (fuel : nat) (cs : list ascii) : option (list JsValue * list ascii) :=
  match fuel with
  | O => None
  | S fuel' =>
      '(v, r) ← parse_value fuel' cs;
      match skip_ws r with
      | c :: rest =>
          if Ascii.eqb c "," then '(vs, r') ← parse_elements fuel' rest; Some (v :: vs, r')
          else if Ascii.eqb c "]" then Some ([v], rest)
          else None
      | [] => None
      end
  end
with parse_members (fuel : nat) (cs : list ascii)
    : option (list (string * JsValue) * list ascii) :=
  match fuel with
  | O => None
  | S fuel' =>
      match skip_ws cs with
      | q :: rest =>
          if Ascii.eqb q dquote then
            '(k, r) ← parse_chars rest;
            match skip_ws r with
            | colon :: r1 =>
                if Ascii.eqb colon ":" then
                  '(v, r2) ← parse_value fuel' r1;
                  match skip_ws r2 with
                  | c :: r3 =>
                      if Ascii.eqb c "," then
                        '(fs, r4) ← parse_members fuel' r3; Some ((k, v) :: fs, r4)
                      else if Ascii.eqb c "}" then Some ([(k, v)], r3)
                      else None
                  | [] => None
                  end
                else None
            | [] => None
            end
          else None
      | [] => None
      end
  end.

Definition parse (s : string) : option JsValue :=
  let cs := list_ascii_of_string s in
  match parse_value (2 * List.length cs + 2) cs with
  | Some (v, rest) => match skip_ws rest with [] => Some v | _ :: _ => None end
  | None => None
  end.

Definition parser : JsonParser := parse.

(** A string literal of JSON text: [quoted "a"] is the three characters
    of the JSON string [a] with its quotes. *)
Definition quoted (s : string) : string :=
  String dquote EmptyString +:+ s +:+ String dquote EmptyString.

End Json.

(** The message of the spec's scenario,
    [{ data: { contact: { email: 'a@b.com' } } }], as an object and as
    JSON text. *)
Definition scenario_context : JsValue :=
  JObj [("data", JObj [("contact", JObj [("email", JStr "a@b.com")])])].

Definition scenario_text : string :=
  "{" +:+ Json.quoted "data" +:+ ":{" +:+ Json.quoted "contact" +:+ ":{"
  +:+ Json.quoted "email" +:+ ":" +:+ Json.quoted "a@b.com" +:+ "}}}".

(** A complete configuration. *)
Definition configured : Storage :=
  {[ "woocommerce_url" := "https://shop.example";
     "woocommerce_consumer_key" := "ck_1";
     "woocommerce_consumer_secret" := "cs_1" ]}.

(** Proof step for an event of the detail view that reports nothing
    and leaves timers and posts alone. *)
Ltac quiet_step :=
  exists []; split; [by rewrite ?app_nil_r | left; split; [done | by left]].

(** ** Properties *)

Example scenario_text_parses : Json.parse scenario_text = Some scenario_context.
Proof. vm_compute. reflexivity. Qed.

Example null_text_parses : Json.parse "null" = Some JNull.
Proof. reflexivity. Qed.

Example junk_text_rejected : Json.parse "{oops" = None.
Proof. reflexivity. Qed.

Example configured_is_complete :
  UserSearch.fetchUsers_request UserSearch.initial configured (JStr "a@b.com")
  = inr (UserSearch.mkRequest "https://shop.example/wp-json/wc/v3/customers"
           "ck_1" "cs_1" (JStr "a@b.com") 20 1).
Proof. vm_compute. reflexivity. Qed.

(** *** Search view: [hasMore] and [loadMore] *)

Section SearchView.
Import UserSearch.
Context {P : JsonParser}.

(** A page that is not empty sets [hasMore] to "the page is full". *)
Lemma hasMore_after_nonempty_page email s data :
  data ≠ [] →
  hasMore (absorb email s data) = (Z.of_nat (List.length data) =? 20).
Proof.
  intros Hne. unfold absorb, fetchUsers_settle, fetchUsers_resolved.
  destruct data as [|u data]; [done|]. reflexivity.
Qed.

(** An empty page leaves [hasMore] as it was. *)
Lemma hasMore_after_empty_page email s :
  hasMore (absorb email s []) = hasMore s.
Proof. reflexivity. Qed.

(** A request that is rejected leaves [hasMore] as it was, too. *)
Lemma hasMore_after_rejection email s (res : HttpResult (list WooCommerceUser)) :
  is_Some (rejection res) →
  hasMore (apply_updates s (fetchUsers_settle email res)) = hasMore s.
Proof. destruct res; [intros [? [=]] | done | done]. Qed.

(** C1 (fails on the code).  The claim: after every fetch of a results
    page, [hasMore] is true iff the page held exactly 20 customers, so a
    page of length 0 leaves it false.  The code: the first search of a
    freshly mounted view comes back with an empty page, the page length
    0 is not 20, and [hasMore] is still [true] (the empty branch of
    [fetchUsers] never calls [setHasMore]); the list is empty and
    NotFound is on display. *)
Theorem C1_empty_page_leaves_hasMore_true :
  let w := run (mount configured) [Typing "a@b.com"; Submit; Settle 0 (Resolved [])] in
  hasMore (state w) = true
  ∧ users (state w) = []
  ∧ error (state w) = Some (NotFound (JStr "a@b.com"))
  ∧ loading (state w) = false
  ∧ map req_page (sent w) = [1].
Proof. vm_compute. repeat split. Qed.

(** [loadMore] only queues the page increment: in every world, clicking
    "Load More" sends nothing, starts nothing and keeps the list. *)
Lemma loadMore_sends_nothing (w : World) :
  let w' := step w LoadMore in
  sent w' = sent w ∧ pending w' = pending w
  ∧ users (state w') = users (state w)
  ∧ hasMore (state w') = hasMore (state w).
Proof.
  cbn. destruct (hasMore (state w) && negb (loading (state w))); done.
Qed.

(** Had the second page been requested and merged, the count would be
    24 and [hasMore] false: the merge itself does what the scenario
    says. *)
Lemma merge_of_scenario_pages email s :
  users s = sample_page 1 20 →
  let s' := absorb email s (sample_page 20 5) in
  List.length (users s') = 24%nat ∧ hasMore s' = false.
Proof.
  destruct s as [q us l e p h c]; cbn [users]; intros ->.
  vm_compute. done.
Qed.

(** C2 (fails on the code).  The claim: [loadMore] from a populated
    state increments the page and issues a fetch for it, so that a
    second page of 5 with one duplicate brings the count to 24 and
    [hasMore] to false.  The code: after page 1 came back with 20
    customers, the click increments [page] to 2 and that is all: no
    request is pending or was sent for page 2, the count stays 20 and
    [hasMore] stays [true]. *)
Theorem C2_loadMore_issues_no_fetch :
  let w := run (mount configured)
             [Typing "a@b.com"; Submit; Settle 0 (Resolved (sample_page 1 20)); LoadMore] in
  page (state w) = 2
  ∧ pending w = []
  ∧ map req_page (sent w) = [1]
  ∧ List.length (users (state w)) = 20%nat
  ∧ hasMore (state w) = true.
Proof. vm_compute. repeat split. Qed.

(** The request of a submitted search carries the [page] of the render
    the handler closes over, whatever [setPage(1)] queued. *)
Lemma handleSearch_requests_snapshot_page snap ls rq :
  snd (handleSearch snap ls) = Some rq → req_page rq = page snap.
Proof.
  unfold handleSearch, fetchUsers_start, fetchUsers_request.
  destruct (_ || _); cbn; [done|]. by intros [= <-].
Qed.

Lemma handleSearch_resets snap ls s :
  let s' := apply_updates s (fst (handleSearch snap ls)) in
  page s' = 1 ∧ users s' = [].
Proof.
  unfold handleSearch, fetchUsers_start.
  destruct (fetchUsers_request snap ls _) as [err|rq]; [destruct err as [|[[]|]]|];
    cbn; done.
Qed.

(** C4 (fails on the code).  The claim: a newly submitted search resets
    the page to 1, clears the list, and its first fetch asks for page 1.
    The code: after one "Load More" the next submitted search does
    reset the [page] cell and the list, but the request it sends asks
    for page 2, the page left over from the previous search. *)
Theorem C4_new_search_requests_stale_page :
  let w := run (mount configured)
             [Typing "a@b.com"; Submit; Settle 0 (Resolved (sample_page 1 20)); LoadMore;
              Typing "c@d.com"; Submit] in
  page (state w) = 1
  ∧ users (state w) = []
  ∧ map (λ rq, (req_email rq, req_page rq)) (sent w)
    = [(JStr "a@b.com", 1); (JStr "c@d.com", 2)].
Proof. vm_compute. repeat split. Qed.

End SearchView.

(** *** Search view: the accumulated list *)

Section Accumulator.
Import UserSearch.

Lemma users_absorb email s data :
  users (absorb email s data)
  = match data with [] => [] | _ :: _ => merge data (users s) end.
Proof. destruct data; reflexivity. Qed.

Lemma known_id_spec (prev : list WooCommerceUser) (u : WooCommerceUser) :
  existsb (λ existingUser, id existingUser =? id u) prev = true ↔ id u ∈ ids prev.
Proof.
  rewrite existsb_exists. unfold ids. rewrite list_elem_of_fmap. split.
  - intros (x & Hx & Heq). exists x. apply Z.eqb_eq in Heq.
    split; [done | by apply list_elem_of_In].
  - intros (x & Heq & Hx). exists x.
    split; [by apply list_elem_of_In | by apply Z.eqb_eq].
Qed.

Lemma ids_merge data prev :
  ids (merge data prev)
  = ids prev ++ List.filter (λ i, negb (bool_decide (i ∈ ids prev))) (ids data).
Proof.
  unfold merge, ids. rewrite map_app. f_equal.
  induction data as [|u data IH]; [done|]. cbn [List.filter map].
  destruct (existsb _ prev) eqn:Hk.
  - apply known_id_spec in Hk. rewrite (bool_decide_eq_true_2 _ Hk). exact IH.
  - assert (id u ∉ ids prev) as Hn.
    { intros Hin. apply known_id_spec in Hin. congruence. }
    rewrite (bool_decide_eq_false_2 _ Hn). cbn. by rewrite IH.
Qed.

Lemma NoDup_filter_bool {A} (f : A → bool) (l : list A) :
  NoDup l → NoDup (List.filter f l).
Proof.
  induction 1 as [|x l Hx Hl IH]; cbn; [constructor|].
  destruct (f x); [|done]. constructor; [|done].
  rewrite list_elem_of_In, filter_In, <- list_elem_of_In. tauto.
Qed.

(** Merging a page without repeated ids keeps the list without them. *)
Lemma merge_NoDup data prev :
  NoDup (ids prev) → NoDup (ids data) → NoDup (ids (merge data prev)).
Proof.
  intros Hp Hd. rewrite ids_merge. apply NoDup_app. split_and!.
  - done.
  - intros i Hi Hf. apply list_elem_of_In, filter_In in Hf as [_ Hf].
    by rewrite (bool_decide_eq_true_2 _ Hi) in Hf.
  - by apply NoDup_filter_bool.
Qed.

Lemma absorb_all_NoDup email pages : ∀ s,
  NoDup (ids (users s)) →
  Forall (λ page, NoDup (ids page)) pages →
  NoDup (ids (users (absorb_all email s pages))).
Proof.
  induction pages as [|page pages IH]; intros s Hs Hpages; [done|].
  inversion Hpages as [|? ? Hpage Hrest]; subst. cbn [absorb_all fold_left].
  apply IH; [|done]. rewrite users_absorb.
  destruct page; [constructor | by apply merge_NoDup].
Qed.

Lemma first_arrivals_filter page : ∀ seen : gset Z,
  NoDup (ids page) →
  first_arrivals seen page
  = List.filter (λ u, negb (bool_decide (id u ∈ seen))) page.
Proof.
  induction page as [|u page IH]; intros seen Hnd; [done|].
  cbn in Hnd. apply NoDup_cons in Hnd as [Hu Hnd]. cbn [first_arrivals List.filter].
  destruct (bool_decide (id u ∈ seen)) eqn:Hseen; cbn [negb].
  - by apply IH.
  - f_equal. rewrite IH by done. apply filter_ext_in. intros x Hx.
    f_equal. apply bool_decide_ext.
    assert (id x ≠ id u) as Hne.
    { intros Heq. apply Hu. rewrite <- Heq. apply list_elem_of_fmap.
      exists x. split; [done | by apply list_elem_of_In]. }
    set_solver.
Qed.

(** On a page without repeated ids the updater of [fetchUsers] appends
    exactly the first arrivals. *)
Lemma merge_first_arrivals data prev :
  NoDup (ids data) →
  merge data prev = prev ++ first_arrivals (list_to_set (ids prev)) data.
Proof.
  intros Hnd. rewrite first_arrivals_filter by done. unfold merge. f_equal.
  apply filter_ext_in. intros u _. f_equal.
  apply eq_true_iff_eq. rewrite known_id_spec, bool_decide_eq_true.
  by rewrite elem_of_list_to_set.
Qed.

Lemma first_arrivals_app a b : ∀ seen : gset Z,
  first_arrivals seen (a ++ b)
  = first_arrivals seen a ++ first_arrivals (list_to_set (ids a) ∪ seen) b.
Proof.
  induction a as [|u a IH]; intros seen; cbn.
  - by rewrite (left_id_L ∅ (∪)).
  - case_bool_decide as Hu; rewrite IH; cbn.
    + f_equal. f_equal. set_solver.
    + f_equal. f_equal. f_equal. set_solver.
Qed.

Lemma ids_first_arrivals a : ∀ seen : gset Z,
  list_to_set (ids (first_arrivals seen a)) ∪ seen = list_to_set (ids a) ∪ seen.
Proof.
  induction a as [|u a IH]; intros seen; cbn; [done|].
  case_bool_decide as Hu; cbn.
  - rewrite IH. set_solver.
  - pose proof (IH ({[id u]} ∪ seen)) as Hrest. unfold ids in Hrest.
    remember (list_to_set (map id (first_arrivals ({[id u]} ∪ seen) a)) : gset Z) as X.
    remember (list_to_set (map id a) : gset Z) as Y.
    clear -Hrest. apply set_eq. intros x.
    rewrite set_eq in Hrest. specialize (Hrest x).
    rewrite !elem_of_union in *. tauto.
Qed.

Lemma absorb_all_first_arrivals email pages : ∀ s,
  Forall (λ page, NoDup (ids page)) pages →
  Forall (λ page, page ≠ []) pages →
  users (absorb_all email s pages)
  = users s ++ first_arrivals (list_to_set (ids (users s))) (List.concat pages).
Proof.
  induction pages as [|page pages IH]; intros s Hnd Hne.
  - cbn. by rewrite app_nil_r.
  - inversion Hnd as [|? ? Hpage Hnd']; inversion Hne as [|? ? Hfull Hne']; subst.
    change (absorb_all email s (page :: pages))
      with (absorb_all email (absorb email s page) pages).
    cbn [List.concat]. rewrite IH by done. rewrite users_absorb.
    destruct page as [|u page]; [done|].
    rewrite merge_first_arrivals by done.
    rewrite first_arrivals_app, <- app_assoc. do 2 f_equal.
    f_equal. unfold ids at 1. rewrite map_app, list_to_set_app_L.
    rewrite (comm_L (∪) (list_to_set (map id (users s)))).
    apply ids_first_arrivals.
Qed.

(** C3 (as stated, fails on the code).  The claim lets every page be an
    arbitrary list of customers.  A page that itself holds the same id
    twice, merged into the empty accumulator, is kept whole: the updater
    of [fetchUsers] compares a new customer with the previous list only,
    not with the rest of its own page. *)
Lemma C3_repeated_id_within_a_page :
  ids (users (absorb_all (JStr "a@b.com") initial [twin_page])) = [7; 7]
  ∧ ¬ NoDup (ids (users (absorb_all (JStr "a@b.com") initial [twin_page]))).
Proof.
  split; [reflexivity|]. cbn. intros Hnd.
  apply NoDup_cons in Hnd as [Hin _]. apply Hin. left.
Qed.

(** C3 (amended).  For every sequence of result pages none of which
    holds an id twice, merged into a list without repeated ids: the
    accumulated list never contains two entries with the same id; and
    when no page of the sequence is empty, it is the previous list
    followed by the first arrival of every further id, in arrival
    order. *)
Theorem C3_accumulator_keeps_first_arrivals email s pages :
  NoDup (ids (users s)) →
  Forall (λ page, NoDup (ids page)) pages →
  NoDup (ids (users (absorb_all email s pages)))
  ∧ (Forall (λ page, page ≠ []) pages →
     users (absorb_all email s pages)
     = users s ++ first_arrivals (list_to_set (ids (users s))) (List.concat pages)).
Proof.
  intros Hs Hpages. split.
  - by apply absorb_all_NoDup.
  - intros Hne. by apply absorb_all_first_arrivals.
Qed.

Lemma C3_accumulator_witness :
  NoDup (ids (users (absorb_all (JStr "a@b.com") initial overlapping_pages)))
  ∧ users (absorb_all (JStr "a@b.com") initial overlapping_pages)
    = users initial
      ++ first_arrivals (list_to_set (ids (users initial)))
           (List.concat overlapping_pages).
Proof.
  destruct (C3_accumulator_keeps_first_arrivals (JStr "a@b.com") initial
              overlapping_pages) as [Hnd Heq].
  - constructor.
  - repeat constructor; cbn; set_solver.
  - split; [exact Hnd | apply Heq; repeat constructor; discriminate].
Defined.

Example overlapping_pages_accumulated :
  ids (users (absorb_all (JStr "a@b.com") initial overlapping_pages)) = [1; 2; 3; 4].
Proof. reflexivity. Qed.

End Accumulator.

(** *** Search view: what a failing fetch does to the list *)

Section FailingFetch.
Import UserSearch.

(** A search for [a@b.com] whose first page came back full, one click
    on "Load More", and the host announcing the same contact: the view
    asks for page 2 of the list it holds. *)
Example second_page_requested :
  map (λ rq, (req_email rq, req_page rq))
      (sent (run (H := Json.parser) (mount configured)
               [Typing "a@b.com"; Submit; Settle 0 (Resolved (sample_page 1 20));
                LoadMore; Message scenario_context]))
  = [(JStr "a@b.com", 1); (JStr "a@b.com", 2)].
Proof. vm_compute. reflexivity. Qed.

(** C9 (as stated, fails on the code).  The claim counts a fetch that
    yields no usable page among the failing fetches that must leave the
    accumulated list alone.  With 20 customers accumulated, the request
    for page 2 resolves with an empty page: the view reports NotFound
    and the 20 customers are gone. *)
Lemma C9_empty_page_erases_accumulated_results :
  List.length
    (users (state (run (H := Json.parser) (mount configured)
       [Typing "a@b.com"; Submit; Settle 0 (Resolved (sample_page 1 20));
        LoadMore; Message scenario_context]))) = 20%nat
  ∧ error (state (run (H := Json.parser) (mount configured)
       [Typing "a@b.com"; Submit; Settle 0 (Resolved (sample_page 1 20));
        LoadMore; Message scenario_context; Settle 0 (Resolved [])]))
    = Some (NotFound (JStr "a@b.com"))
  ∧ users (state (run (H := Json.parser) (mount configured)
       [Typing "a@b.com"; Submit; Settle 0 (Resolved (sample_page 1 20));
        LoadMore; Message scenario_context; Settle 0 (Resolved [])]))
    = [].
Proof. vm_compute. repeat split. Qed.

(** A call stopped by its credentials check keeps the list as well. *)
Lemma unconfigured_fetch_keeps_results snap ls email s :
  fetchUsers_request snap ls email = inl ConfigurationMissing →
  let s' := apply_updates s (fst (fetchUsers_start snap ls email)) in
  error s' = Some UnknownError ∧ users s' = users s.
Proof. intros Hcfg. unfold fetchUsers_start. rewrite Hcfg. done. Qed.

(** An empty page is no rejection: the view reports NotFound for the
    queried value and empties the list. *)
Lemma empty_page_empties_results (email : JsValue) (s : State) :
  let s' := apply_updates s (fetchUsers_settle email (Resolved [])) in
  error s' = Some (NotFound email) ∧ users s' = [].
Proof. done. Qed.

(** C9 (amended).  For every state of the search view, a fetch that is
    rejected reports the error and leaves the accumulated list
    unchanged: HttpError with the status when the rejection carries a
    response, UnknownError otherwise. *)
Theorem C9_rejected_fetch_keeps_results (email : JsValue) (s : State) :
  (∀ status statusText,
     let s' := apply_updates s (fetchUsers_settle email (RejectedWithResponse status statusText)) in
     error s' = Some (HttpError status statusText) ∧ users s' = users s)
  ∧ (let s' := apply_updates s (fetchUsers_settle email RejectedOther) in
     error s' = Some UnknownError ∧ users s' = users s).
Proof. split; done. Qed.

End FailingFetch.

(** *** Both views: the two accepted payload shapes *)

Section Bridge.
Context {P : JsonParser}.

Lemma text_handled_as_its_object_D (m : string) (o : JsValue) :
  JSON_parse m = Some o → typeof o = TyObject →
  Dashboard.handleChatwootMessage (JStr m) = Dashboard.handleChatwootMessage o.
Proof.
  intros Hm Ho. unfold Dashboard.handleChatwootMessage. rewrite Hm.
  destruct o; try discriminate Ho; reflexivity.
Qed.

Lemma text_handled_as_its_object_U (m : string) (o : JsValue) :
  JSON_parse m = Some o → typeof o = TyObject →
  UserSearch.handleChatwootMessage (JStr m) = UserSearch.handleChatwootMessage o.
Proof.
  intros Hm Ho. unfold UserSearch.handleChatwootMessage. rewrite Hm.
  destruct o; try discriminate Ho; reflexivity.
Qed.

(** C8.  For every inbound message [m] that is valid JSON text for a
    structured value [o] (one with [typeof o === 'object']), handling
    the text and handling [o] itself lead from every world to the same
    world, in the detail view and in the search view: same stored
    context, same error cell, same searches started. *)
Theorem C8_text_and_object_handled_alike (m : string) (o : JsValue) :
  JSON_parse m = Some o →
  typeof o = TyObject →
  (∀ w, Dashboard.step w (Dashboard.Message (JStr m))
        = Dashboard.step w (Dashboard.Message o))
  ∧ (∀ w, UserSearch.step w (UserSearch.Message (JStr m))
          = UserSearch.step w (UserSearch.Message o)).
Proof.
  intros Hm Ho. split; intros w.
  - unfold Dashboard.step. by rewrite (text_handled_as_its_object_D m o).
  - unfold UserSearch.step. by rewrite (text_handled_as_its_object_U m o).
Qed.

(** The restriction to structured values matters: the text [5] is
    stored, the number 5 is refused. *)
Example number_text_is_not_handled_as_number :
  JSON_parse "5" = Some (JNum 5) →
  Dashboard.handleChatwootMessage (JStr "5")
  = [Dashboard.SetChatwootData (JNum 5); Dashboard.SetError None;
     Dashboard.SetIsLoading false]
  ∧ Dashboard.handleChatwootMessage (JNum 5)
    = [Dashboard.SetError (Some Dashboard.ProcessFailed); Dashboard.SetIsLoading false].
Proof. intros H5. unfold Dashboard.handleChatwootMessage. by rewrite H5. Qed.

(** C10.  A [null] payload, and the text [null] that parses to it, pass
    the shape check as an object.  In the detail view the handler
    reports nothing, clears the error cell and stores [null] in place
    of whatever context was held; in the search view it stores [null]
    and leaves the error cell as it was.  Neither starts a search. *)
Theorem C10_null_payload_replaces_context
    (wd : Dashboard.World) (wu : UserSearch.World) (data : JsValue) :
  JSON_parse "null" = Some JNull →
  data = JNull ∨ data = JStr "null" →
  (let w' := Dashboard.step wd (Dashboard.Message data) in
   Dashboard.chatwootData (Dashboard.state w') = JNull
   ∧ Dashboard.error (Dashboard.state w') = None
   ∧ Dashboard.reported w' = Dashboard.reported wd
   ∧ Dashboard.sent w' = Dashboard.sent wd)
  ∧ (let w' := UserSearch.step wu (UserSearch.Message data) in
     UserSearch.chatwootData (UserSearch.state w') = JNull
     ∧ UserSearch.error (UserSearch.state w') = UserSearch.error (UserSearch.state wu)
     ∧ UserSearch.sent w' = UserSearch.sent wu).
Proof.
  intros Hnull [-> | ->]; split.
  - cbn. destruct (same_value _ _); cbn; by rewrite ?app_nil_r.
  - cbn. destruct (same_value _ _); cbn; done.
  - unfold Dashboard.step, Dashboard.handleChatwootMessage. rewrite Hnull.
    cbn. destruct (same_value _ _); cbn; by rewrite ?app_nil_r.
  - unfold UserSearch.step, UserSearch.handleChatwootMessage. rewrite Hnull.
    cbn. destruct (same_value _ _); cbn; done.
Qed.

End Bridge.

Lemma C8_scenario_witness :
  (∀ w, Dashboard.step (H := Json.parser) w (Dashboard.Message (JStr scenario_text))
        = Dashboard.step (H := Json.parser) w (Dashboard.Message scenario_context))
  ∧ (∀ w, UserSearch.step (H := Json.parser) w (UserSearch.Message (JStr scenario_text))
          = UserSearch.step (H := Json.parser) w (UserSearch.Message scenario_context)).
Proof.
  apply (@C8_text_and_object_handled_alike Json.parser scenario_text scenario_context).
  - vm_compute. reflexivity.
  - reflexivity.
Defined.

Lemma C10_null_after_context_witness :
  Dashboard.chatwootData
    (Dashboard.state
       (Dashboard.run (H := Json.parser) (Dashboard.mount configured)
          [Dashboard.Message scenario_context])) = scenario_context
  ∧ Dashboard.chatwootData
      (Dashboard.state
         (Dashboard.run (H := Json.parser) (Dashboard.mount configured)
            [Dashboard.Message scenario_context; Dashboard.Message (JStr "null")]))
    = JNull
  ∧ Dashboard.reported
      (Dashboard.run (H := Json.parser) (Dashboard.mount configured)
         [Dashboard.Message scenario_context; Dashboard.Message (JStr "null")])
    = [].
Proof.
  split; [reflexivity|].
  pose proof (@C10_null_payload_replaces_context Json.parser
                (Dashboard.run (H := Json.parser) (Dashboard.mount configured)
                   [Dashboard.Message scenario_context])
                (UserSearch.mount configured) (JStr "null")
                eq_refl (or_intror eq_refl)) as [(Hctx & _ & Hrep & _) _].
  split; [exact Hctx | exact Hrep].
Defined.

(** *** Detail view: the bounded wait of [fetchChatwootData] *)

Section BoundedWait.
Import Dashboard.
Context {P : JsonParser}.

(** The timer armed by a click holds the context of the render in which
    the click happened. *)
Lemma click_arms_timer_with_current_context (w : World) :
  isLoading (state w) = false →
  timers (step w (ClickFetch false)) = timers w ++ [chatwootData (state w)].
Proof. intros Hidle. cbn. by rewrite Hidle. Qed.

(** When a timer fires, only the captured context decides: messages
    handled since the click do not reach the callback. *)
Lemma timeout_decided_by_captured_context (w : World) (i : nat) (captured : JsValue) :
  timers w !! i = Some captured →
  reported (step w (Timeout i))
  = reported w ++ (if truthy captured then [] else [BridgeReport NoResponse]).
Proof.
  intros Ht. cbn. rewrite Ht. unfold timeout_callback.
  destruct (truthy captured); cbn; by rewrite ?app_nil_r.
Qed.

(** With nothing received before or after the click, the timeout is
    reported once, and a context that arrives later is stored and
    clears the error. *)
Example timeout_then_late_context :
  let w := run (mount configured) [ClickFetch false; Timeout 0] in
  let w' := step w (Message scenario_context) in
  reported w = [BridgeReport NoResponse]
  ∧ error (state w) = Some NoResponse
  ∧ chatwootData (state w') = scenario_context
  ∧ error (state w') = None
  ∧ reported w' = [BridgeReport NoResponse].
Proof. vm_compute. repeat split. Qed.

(** C5 (fails on the code).  The claim: the timeout is reported only if
    no context message was received in the interim.  The code: a click
    on a freshly mounted view, then the host's context message, handled
    and stored, then the timer: the callback still sees the [null] of
    the render in which the click happened, so NoResponse is reported
    and shown over the context that did arrive. *)
Theorem C5_timeout_reported_despite_context :
  let w := run (mount configured)
             [ClickFetch false; Message scenario_context; Timeout 0] in
  chatwootData (state w) = scenario_context
  ∧ error (state w) = Some NoResponse
  ∧ reported w = [BridgeReport NoResponse]
  ∧ posts w = ["chatwoot-dashboard-app:fetch-info"]
  ∧ timers w = [].
Proof. vm_compute. repeat split. Qed.

(** The same stale capture the other way round: with a context already
    held, a request that the host never answers reports no timeout and
    the view stays in its loading state. *)
Example unanswered_request_with_old_context :
  let w := run (mount configured)
             [Message scenario_context; ClickFetch false; Timeout 0] in
  reported w = [] ∧ error (state w) = None ∧ isLoading (state w) = true.
Proof. vm_compute. repeat split. Qed.

End BoundedWait.

(** *** Both pipelines: the credentials check *)

Section Credentials.

(** C6.  For every resolution attempt, detail or paginated search, made
    while at least one of the three credentials is absent from
    [localStorage]: the attempt throws the ConfigurationMissing error
    before its request is built, sends no request, and ends with an
    error on display (the [catch] clauses show their general texts:
    SearchFailed in the detail view, UnknownError in the search view). *)
Theorem C6_missing_credentials_stop_the_attempt
    (ls : Storage) (email : JsValue)
    (sd : Dashboard.State) (snap su : UserSearch.State) :
  ls !! "woocommerce_url" = None
  ∨ ls !! "woocommerce_consumer_key" = None
  ∨ ls !! "woocommerce_consumer_secret" = None →
  (Dashboard.search_request ls email = inl ConfigurationMissing
   ∧ (∀ customers orders_api,
        snd (Dashboard.searchWooCommerceData ls email customers orders_api) = [])
   ∧ Dashboard.searchError
       (Dashboard.apply_updates sd (fst (Dashboard.search_start ls email)))
     = Some Dashboard.SearchFailed)
  ∧ (UserSearch.fetchUsers_request snap ls email = inl ConfigurationMissing
     ∧ snd (UserSearch.fetchUsers_start snap ls email) = None
     ∧ UserSearch.error
         (UserSearch.apply_updates su (fst (UserSearch.fetchUsers_start snap ls email)))
       = Some UserSearch.UnknownError).
Proof.
  intros Habsent.
  assert (missing (ls !! "woocommerce_url")
          || missing (ls !! "woocommerce_consumer_key")
          || missing (ls !! "woocommerce_consumer_secret") = true) as Hmiss.
  { destruct Habsent as [-> | [-> | ->]]; cbn; by rewrite ?orb_true_r. }
  assert (Dashboard.search_request ls email = inl ConfigurationMissing) as Hd.
  { unfold Dashboard.search_request. by rewrite Hmiss. }
  assert (UserSearch.fetchUsers_request snap ls email = inl ConfigurationMissing) as Hu.
  { unfold UserSearch.fetchUsers_request. by rewrite Hmiss. }
  split; split_and!; try done.
  - intros customers orders_api.
    unfold Dashboard.searchWooCommerceData, Dashboard.search_start. by rewrite Hd.
  - unfold Dashboard.search_start. by rewrite Hd.
  - unfold UserSearch.fetchUsers_start. by rewrite Hu.
  - unfold UserSearch.fetchUsers_start. by rewrite Hu.
Qed.

(** The spec's scenario: the context message for [a@b.com] reaches a
    view with no credentials configured at all. *)
Lemma C6_zero_credentials_witness :
  (Dashboard.search_request ∅ (JStr "a@b.com") = inl ConfigurationMissing
   ∧ (∀ customers orders_api,
        snd (Dashboard.searchWooCommerceData ∅ (JStr "a@b.com") customers orders_api) = [])
   ∧ Dashboard.searchError
       (Dashboard.apply_updates Dashboard.initial
          (fst (Dashboard.search_start ∅ (JStr "a@b.com"))))
     = Some Dashboard.SearchFailed)
  ∧ (UserSearch.fetchUsers_request UserSearch.initial ∅ (JStr "a@b.com")
     = inl ConfigurationMissing
     ∧ snd (UserSearch.fetchUsers_start UserSearch.initial ∅ (JStr "a@b.com")) = None
     ∧ UserSearch.error
         (UserSearch.apply_updates UserSearch.initial
            (fst (UserSearch.fetchUsers_start UserSearch.initial ∅ (JStr "a@b.com"))))
       = Some UserSearch.UnknownError).
Proof.
  apply (C6_missing_credentials_stop_the_attempt ∅ (JStr "a@b.com")
           Dashboard.initial UserSearch.initial UserSearch.initial).
  left. reflexivity.
Defined.

Example scenario_message_without_credentials :
  let w := Dashboard.run (H := Json.parser) (Dashboard.mount ∅)
             [Dashboard.Message (JStr scenario_text)] in
  Dashboard.sent w = [] ∧ Dashboard.pending w = []
  ∧ Dashboard.reported w = [Dashboard.SearchReport Dashboard.SearchFailed].
Proof. vm_compute. repeat split. Qed.

End Credentials.

(** *** Detail view: a request that fails *)

Section DetailResolution.
Import Dashboard.

Lemma snoc_lookup {A} (l : list A) (x : A) : (l ++ [x]) !! List.length l = Some x.
Proof. by apply list_lookup_middle. Qed.

Lemma snoc_delete {A} (l : list A) (x : A) : delete (List.length l) (l ++ [x]) = l.
Proof. by rewrite delete_middle, app_nil_r. Qed.

Lemma snoc_insert {A} (l : list A) (x y : A) :
  <[List.length l := y]> (l ++ [x]) = l ++ [y].
Proof. rewrite insert_app_r_alt by done. by rewrite Nat.sub_diag. Qed.

Lemma apply_updates_app s us vs :
  apply_updates s (us ++ vs) = apply_updates (apply_updates s us) vs.
Proof. apply fold_left_app. Qed.

Lemma reports_of_app us vs : reports_of (us ++ vs) = reports_of us ++ reports_of vs.
Proof. apply omap_app. Qed.

(** [searchWooCommerceData] against given answers is what the
    transition system does when the call is started in a world and its
    requests are settled with those answers, with nothing in between. *)
Lemma attempt_in_the_transition_system {P : JsonParser} (w : World) (email : JsValue)
    (customers : HttpResult (list WooCommerceCustomer))
    (orders_api : Request → HttpResult (list WooCommerceOrder)) :
  let out := searchWooCommerceData (storage w) email customers orders_api in
  let i := List.length (pending w) in
  let w1 := start_search w (search_start (storage w) email) in
  let w2 := step w1 (SettleCustomers i customers) in
  let w3 := match snd out with
            | [_; rq2] => step w2 (SettleOrders i (orders_api rq2))
            | _ => w2
            end in
  state w3 = apply_updates (state w) (fst out)
  ∧ sent w3 = sent w ++ snd out
  ∧ reported w3 = reported w ++ reports_of (fst out)
  ∧ pending w3 = pending w.
Proof.
  destruct w as [s ls ps ts sn po rp].
  cbn [storage pending state sent reported].
  unfold searchWooCommerceData, search_start, start_search.
  destruct (search_request ls email) as [err|c]; cbn [fst snd].
  - cbn. rewrite lookup_ge_None_2 by done. cbn. by rewrite app_nil_r.
  - cbn [step with_pending commit pending state sent reported storage timers posts].
    rewrite snoc_lookup.
    destruct customers as [[|first rest]| |];
      cbn [search_customers_settled search_catch fst snd with_pending commit
           pending state sent reported storage timers posts option_list];
      rewrite ?snoc_delete, ?snoc_insert, ?apply_updates_app, ?reports_of_app,
        <- ?app_assoc; try done.
    cbn [step pending]. rewrite snoc_lookup.
    cbn [with_pending commit pending state sent reported storage timers posts
         option_list].
    rewrite snoc_delete, ?apply_updates_app, ?reports_of_app, <- ?app_assoc.
    rewrite app_nil_r. done.
Qed.

(** C7.  For every detail resolution that got past its credentials
    check and in which the customers request is rejected, or the
    customers request finds a customer and the orders request that
    follows is rejected: exactly one error, SearchFailed, is reported
    and is what the panel shows; the steps after the failed request do
    not run (after a failed customers request no orders request is sent
    and customer and orders stay as they were; after a failed orders
    request the orders are not written).  The new customer is never
    shown with an order list while the failure goes unreported. *)
Theorem C7_failed_request_reports_one_SearchFailed
    (ls : Storage) (email : JsValue) (c : Credentials)
    (customers : HttpResult (list WooCommerceCustomer))
    (orders_api : Request → HttpResult (list WooCommerceOrder))
    (s : State) :
  search_request ls email = inr c →
  (is_Some (rejection customers)
   ∨ ∃ first rest, customers = Resolved (first :: rest)
                   ∧ is_Some (rejection (orders_api (GetOrders c (id first))))) →
  let out := searchWooCommerceData ls email customers orders_api in
  let s' := apply_updates s (fst out) in
  reports_of (fst out) = [SearchReport SearchFailed]
  ∧ searchError s' = Some SearchFailed
  ∧ renderWooCommerceData s' = ShowError SearchFailed
  ∧ snd out = match customers with
              | Resolved (first :: _) => [GetCustomers c email; GetOrders c (id first)]
              | _ => [GetCustomers c email]
              end
  ∧ customer s' = match customers with
                  | Resolved (first :: _) => Some first
                  | _ => customer s
                  end
  ∧ orders s' = orders s.
Proof.
  intros Hc Hfail. unfold searchWooCommerceData, search_start. rewrite Hc.
  destruct Hfail as [Hrej | (first & rest & -> & Hrej)].
  - destruct customers as [data| |]; [by destruct Hrej as [? [=]] | done | done].
  - cbn [search_customers_settled].
    destruct (orders_api _) as [data| |]; [by destruct Hrej as [? [=]] | done | done].
Qed.

Lemma C7_orders_down_witness :
  reports_of (fst (searchWooCommerceData configured (JStr "a@b.com")
                     (Resolved [customer_7]) orders_down))
  = [SearchReport SearchFailed]
  ∧ renderWooCommerceData
      (apply_updates initial
         (fst (searchWooCommerceData configured (JStr "a@b.com")
                 (Resolved [customer_7]) orders_down)))
    = ShowError SearchFailed
  ∧ snd (searchWooCommerceData configured (JStr "a@b.com")
           (Resolved [customer_7]) orders_down)
    = [GetCustomers shop (JStr "a@b.com"); GetOrders shop 7].
Proof.
  pose proof (C7_failed_request_reports_one_SearchFailed configured (JStr "a@b.com")
                shop (Resolved [customer_7]) orders_down initial) as H.
  destruct H as (Hrep & _ & Hpanel & Hsent & _).
  - vm_compute. reflexivity.
  - right. exists customer_7, []. split; [reflexivity|]. eexists. reflexivity.
  - split_and!; [exact Hrep | exact Hpanel | exact Hsent].
Defined.

(** The same attempt, event by event. *)
Example orders_down_in_the_transition_system :
  let w := run (H := Json.parser) (mount configured)
             [Message scenario_context;
              SettleCustomers 0 (Resolved [customer_7]);
              SettleOrders 0 (RejectedWithResponse 500 "Internal Server Error")] in
  customer (state w) = Some customer_7
  ∧ orders (state w) = []
  ∧ searchError (state w) = Some SearchFailed
  ∧ reported w = [SearchReport SearchFailed]
  ∧ sent w = [GetCustomers shop (JStr "a@b.com"); GetOrders shop 7]
  ∧ pending w = [].
Proof. vm_compute. repeat split. Qed.

End DetailResolution.

(** ** Further properties of the search view *)

Section MergeLaws.
Import UserSearch.

Lemma filter_none {A} (f : A → bool) (l : list A) :
  (∀ x, x ∈ l → f x = false) → List.filter f l = [].
Proof.
  induction l as [|x l IH]; intros Hf; [done|]. cbn.
  rewrite (Hf x) by left. apply IH. intros y Hy. apply Hf. by right.
Qed.

Lemma elem_of_ids (u : WooCommerceUser) (l : list WooCommerceUser) :
  u ∈ l → id u ∈ ids l.
Proof. intros Hu. apply list_elem_of_fmap. by exists u. Qed.

Lemma ids_merge_elem (data prev : list WooCommerceUser) (i : Z) :
  i ∈ ids (merge data prev) ↔ i ∈ ids prev ∨ i ∈ ids data.
Proof.
  rewrite ids_merge, elem_of_app.
  assert (i ∈ List.filter (λ j, negb (bool_decide (j ∈ ids prev))) (ids data)
          ↔ i ∈ ids data ∧ i ∉ ids prev) as ->.
  { rewrite list_elem_of_In, filter_In, <- list_elem_of_In.
    rewrite negb_true_iff, bool_decide_eq_false. done. }
  destruct (decide (i ∈ ids prev)); intuition.
Qed.

(** X2.  The updater of [fetchUsers] keeps the previous list as a
    prefix of its result, and the ids of the result are exactly the ids
    held before together with the ids of the page: no customer already
    shown is dropped or moved, and no id of the page is lost. *)
Theorem X2_merge_keeps_prefix_and_covers_page (data prev : list WooCommerceUser) :
  prev `prefix_of` merge data prev
  ∧ ∀ i, i ∈ ids (merge data prev) ↔ i ∈ ids prev ∨ i ∈ ids data.
Proof.
  split; [unfold merge; by eexists | apply ids_merge_elem].
Qed.

(** X1.  A page that is merged a second time adds nothing, whatever the
    page and the previous list are: the same response delivered twice
    shows every customer once. *)
Theorem X1_merge_absorbs_repeated_page (data prev : list WooCommerceUser) :
  merge data (merge data prev) = merge data prev.
Proof.
  unfold merge at 1. rewrite filter_none; [by rewrite app_nil_r|].
  intros u Hu. apply negb_false_iff, known_id_spec.
  apply ids_merge_elem. right. by apply elem_of_ids.
Qed.

(** X19.  Two pages merged in either order leave the same customers
    on display (the same set of ids): responses that arrive out of
    order change the order of the list, not its members. *)
Theorem X19_merge_order_keeps_the_members (a b prev : list WooCommerceUser) (i : Z) :
  i ∈ ids (merge a (merge b prev)) ↔ i ∈ ids (merge b (merge a prev)).
Proof. rewrite !ids_merge_elem. tauto. Qed.

End MergeLaws.

Section SearchExecutions.
Import UserSearch.
Context {P : JsonParser}.

(** The two ways a [fetchUsers] call can begin. *)
Lemma fetchUsers_start_cases snap ls email :
  (∃ rq, fetchUsers_request snap ls email = inr rq
         ∧ fetchUsers_start snap ls email = ([SetLoading true; SetError None], Some rq))
  ∨ (fetchUsers_request snap ls email = inl ConfigurationMissing
     ∧ fetchUsers_start snap ls email
       = ([SetLoading true; SetError None; SetError (Some UnknownError); SetLoading false],
          None)).
Proof.
  unfold fetchUsers_start, fetchUsers_request.
  destruct (_ || _); [right | left; eexists]; done.
Qed.

(** The request of a call that passed its check. *)
Lemma fetchUsers_request_fields snap ls email rq :
  fetchUsers_request snap ls email = inr rq →
  built_from ls rq ∧ req_email rq = email ∧ req_per_page rq = 20
  ∧ req_page rq = page snap.
Proof.
  unfold fetchUsers_request.
  destruct (ls !! "woocommerce_url") as [url|] eqn:Hu; [|done].
  destruct (ls !! "woocommerce_consumer_key") as [key|] eqn:Hk;
    [|by rewrite orb_true_r].
  destruct (ls !! "woocommerce_consumer_secret") as [secret|] eqn:Hs;
    [|by rewrite orb_true_r].
  cbn [missing default].
  destruct (String.eqb url "") eqn:Eu; [done|].
  destruct (String.eqb key "") eqn:Ek; [done|].
  destruct (String.eqb secret "") eqn:Es; [done|].
  cbn. intros [= <-]. split_and!; try done.
  exists url, key, secret. apply String.eqb_neq in Eu, Ek, Es. done.
Qed.

(** What one event can do to the list, the page, the log of requests,
    the pending calls and the spinner. *)
Lemma step_summary (w : World) (ev : Event) :
  let w' := step w ev in
  storage w' = storage w
  ∧ (users (state w') = users (state w)
     ∨ users (state w') = []
     ∨ ∃ i data, ev = Settle i (Resolved data)
                 ∧ users (state w') = merge data (users (state w)))
  ∧ (page (state w') = page (state w)
     ∨ page (state w') = 1
     ∨ page (state w') = page (state w) + 1)
  ∧ ((sent w' = sent w
      ∧ (loading (state w') = false
         ∨ pending w' = pending w ∧ loading (state w') = loading (state w)))
     ∨ ∃ snap email rq,
         page snap = page (state w)
         ∧ fetchUsers_request snap (storage w) email = inr rq
         ∧ sent w' = sent w ++ [rq]
         ∧ pending w' = pending w ++ [email]
         ∧ loading (state w') = true).
Proof.
  destruct w as [s ls ps sn]. destruct ev as [data|t| | |i res].
  - (* Message *)
    cbn [step]. unfold handleChatwootMessage.
    set (eventData := match data with JStr m => JSON_parse m | _ => _ end).
    destruct eventData as [v|]; cbn -[chatwootData_effect].
    2:{ split_and!; auto. }
    destruct (same_value (chatwootData s) v); cbn -[chatwootData_effect].
    1:{ split_and!; auto. }
    unfold chatwootData_effect. cbn [chatwootData].
    destruct (truthy (contact_email v)); [|cbn; split_and!; auto].
    match goal with |- context [fetchUsers_start ?sn ?l ?e] =>
      destruct (fetchUsers_start_cases sn l e) as [(rq & Hrq & ->) | [_ ->]] end.
    + cbn. split_and!; auto. right. eexists _, _, rq. split_and!; [|exact Hrq|..]; done.
    + cbn. split_and!; auto.
  - (* Typing *) cbn. split_and!; auto.
  - (* Submit *)
    cbn [step state storage]. unfold handleSearch.
    destruct (fetchUsers_start_cases s ls (searchEmail s)) as [(rq & Hrq & ->) | [_ ->]].
    + cbn. split_and!; auto. right. exists s, (searchEmail s), rq. done.
    + cbn. split_and!; auto.
  - (* LoadMore *)
    cbn. destruct (hasMore s && negb (loading s)); cbn; split_and!; auto.
  - (* Settle *)
    cbn [step pending]. destruct (ps !! i) as [email|]; [|cbn; split_and!; auto].
    destruct res as [[|u data]| |]; cbn; split_and!; eauto 10.
Qed.

Lemma run_app (w : World) (evs evs' : list Event) :
  run w (evs ++ evs') = run (run w evs) evs'.
Proof. apply fold_left_app. Qed.

Lemma run_invariant (I : World → Prop) :
  (∀ w ev, I w → I (step w ev)) → ∀ evs w, I w → I (run w evs).
Proof.
  intros Hstep evs. induction evs as [|ev evs IH]; intros w Hw; [done|].
  apply IH, Hstep, Hw.
Qed.

Lemma run_storage (w : World) (evs : list Event) : storage (run w evs) = storage w.
Proof.
  revert w. induction evs as [|ev evs IH]; intros w; [done|].
  cbn. fold (run (step w ev) evs). rewrite IH. apply step_summary.
Qed.

Lemma requests_invariant (ls : Storage) (evs : list Event) :
  1 ≤ page (state (run (mount ls) evs))
  ∧ Forall (request_in_order ls) (sent (run (mount ls) evs)).
Proof.
  pose (I := λ w : World, storage w = ls ∧ 1 ≤ page (state w)
                          ∧ Forall (request_in_order ls) (sent w)).
  assert (I (run (mount ls) evs)) as (_ & Hp & Hs); [|done].
  apply run_invariant; [|by repeat split].
  intros w ev (Hls & Hp & Hs).
  destruct (step_summary w ev) as (Hst & _ & Hpage & Hsent).
  split_and!.
  - congruence.
  - destruct Hpage as [-> | [-> | ->]]; lia.
  - destruct Hsent as [[-> _] | (snap & email & rq & Hsnap & Hrq & -> & _)]; [done|].
    apply Forall_app. split; [done|]. apply Forall_singleton.
    apply fetchUsers_request_fields in Hrq as (Hb & _ & Hpp & Hpg).
    rewrite Hls in Hb. unfold request_in_order. split_and!; [done | done | lia].
Qed.

(** X5.  In every execution of the search view, every request it has
    sent was built from the three settings of [localStorage], each
    present and non-empty, asks for 20 customers per page and for a
    page number that is at least 1; and the [page] cell itself never
    drops below 1. *)
Theorem X5_every_request_is_in_order (ls : Storage) (evs : list Event) :
  1 ≤ page (state (run (mount ls) evs))
  ∧ Forall (λ rq, built_from ls rq ∧ req_per_page rq = 20 ∧ 1 ≤ req_page rq)
      (sent (run (mount ls) evs)).
Proof. apply requests_invariant. Qed.

(** X6.  While one of the three settings is missing or empty, no
    execution of the search view sends any request: whatever is typed,
    submitted, clicked or received from the host. *)
Theorem X6_unconfigured_view_sends_nothing (ls : Storage) (evs : list Event) :
  missing (ls !! "woocommerce_url")
  || missing (ls !! "woocommerce_consumer_key")
  || missing (ls !! "woocommerce_consumer_secret") = true →
  sent (run (mount ls) evs) = [].
Proof.
  intros Hmiss. destruct (requests_invariant ls evs) as [_ Hall].
  destruct (sent (run (mount ls) evs)) as [|rq rest]; [done|]. exfalso.
  apply Forall_cons in Hall
    as [[(url & key & secret & Hu & Hk & Hs & Nu & Nk & Ns & _) _] _].
  rewrite Hu, Hk, Hs in Hmiss. cbn in Hmiss.
  apply String.eqb_neq in Nu, Nk, Ns. by rewrite Nu, Nk, Ns in Hmiss.
Qed.

(** X4.  In every execution that starts from a list without repeated
    ids and in which no results page names an id twice, the displayed
    list never holds two customers with the same id, however searches,
    context messages, failures and late responses interleave. *)
Theorem X4_displayed_ids_stay_distinct (w : World) (evs : list Event) :
  NoDup (ids (users (state w))) →
  Forall well_paged evs →
  NoDup (ids (users (state (run w evs)))).
Proof.
  revert w. induction evs as [|ev evs IH]; intros w Hw Hevs; [done|].
  apply Forall_cons in Hevs as [Hev Hevs]. cbn. fold (run (step w ev) evs).
  apply IH; [|done].
  destruct (step_summary w ev) as (_ & Hus & _).
  destruct Hus as [-> | [-> | (i & data & -> & ->)]]; [done | constructor |].
  by apply merge_NoDup.
Qed.

(** X7.  In every execution of the search view, once no [fetchUsers]
    call is pending the spinner is off. *)
Theorem X7_idle_view_is_not_loading (ls : Storage) (evs : list Event) :
  pending (run (mount ls) evs) = [] →
  loading (state (run (mount ls) evs)) = false.
Proof.
  pose (I := λ w : World, pending w = [] → loading (state w) = false).
  apply (run_invariant I); [|done].
  intros w ev Hw. destruct (step_summary w ev) as (_ & _ & _ & Hsent).
  destruct Hsent as [[_ [Hoff | [Hp Hl]]] | (snap & email & rq & _ & _ & _ & Hp & _)];
    intros Hidle.
  - done.
  - rewrite Hl. apply Hw. by rewrite <- Hp.
  - rewrite Hp in Hidle. by destruct (pending w).
Qed.

Lemma merge_nil (data : list WooCommerceUser) : merge data [] = data.
Proof.
  unfold merge. cbn. induction data as [|u data IH]; [done|]. cbn. by rewrite IH.
Qed.

(** X3.  A submitted search whose request is answered next with a page
    that is not empty shows exactly that page, in the order received:
    the list is the page, [hasMore] tells whether the page is full, the
    spinner is off, no error is shown and [page] is 1; the one request
    sent is for the typed value and carries the page number of the
    render in which the form was submitted. *)
Theorem X3_submitted_search_shows_the_page
    (w : World) (rq : Request) (data : list WooCommerceUser) :
  fetchUsers_request (state w) (storage w) (searchEmail (state w)) = inr rq →
  data ≠ [] →
  let w' := run w [Submit; Settle (List.length (pending w)) (Resolved data)] in
  users (state w') = data
  ∧ hasMore (state w') = (Z.of_nat (List.length data) =? 20)
  ∧ loading (state w') = false
  ∧ error (state w') = None
  ∧ page (state w') = 1
  ∧ sent w' = sent w ++ [rq]
  ∧ pending w' = pending w
  ∧ req_email rq = searchEmail (state w)
  ∧ req_page rq = page (state w).
Proof.
  intros Hrq Hdata. destruct w as [s ls ps sn]. cbn [state storage pending] in *.
  pose proof (fetchUsers_request_fields _ _ _ _ Hrq) as (_ & Hem & _ & Hpg).
  cbn [run fold_left step state storage]. unfold handleSearch, fetchUsers_start.
  rewrite Hrq. cbn [commit fst snd state storage pending sent].
  rewrite (list_lookup_middle ps [] (searchEmail s) (List.length ps) eq_refl).
  rewrite delete_middle, app_nil_r.
  destruct data as [|u data]; [done|].
  unfold fetchUsers_settle, fetchUsers_resolved.
  assert ((Z.of_nat (List.length (u :: data)) =? 0) = false) as ->
    by (apply Z.eqb_neq; cbn [List.length]; lia).
  cbn -[merge Z.of_nat Z.eqb List.length]. rewrite merge_nil. done.
Qed.

End SearchExecutions.

Section SearchMessages.
Import UserSearch.
Context {P : JsonParser}.

(** A value that carries a contact email is an object literal. *)
Lemma contact_email_of_object (v : JsValue) :
  truthy (contact_email v) = true → ∃ fs, v = JObj fs.
Proof. destruct v; try discriminate. by eexists. Qed.

(** X8.  A structured context message that names a contact email, in a
    configured view, starts one search for that email: the request
    carries the email and the current page number, the input field
    takes the email, the spinner is on and the error is cleared; the
    accumulated list and the page number stay as they are. *)
Theorem X8_context_email_starts_a_search (w : World) (o : JsValue) (rq : Request) :
  typeof o = TyObject →
  truthy (contact_email o) = true →
  fetchUsers_request (state w) (storage w) (contact_email o) = inr rq →
  let w' := step w (Message o) in
  chatwootData (state w') = o
  ∧ searchEmail (state w') = contact_email o
  ∧ sent w' = sent w ++ [rq]
  ∧ pending w' = pending w ++ [contact_email o]
  ∧ req_email rq = contact_email o
  ∧ req_page rq = page (state w)
  ∧ users (state w') = users (state w)
  ∧ page (state w') = page (state w)
  ∧ loading (state w') = true
  ∧ error (state w') = None.
Proof.
  intros _ Hmail Hrq.
  destruct (contact_email_of_object o Hmail) as [fs ->].
  pose proof (fetchUsers_request_fields _ _ _ _ Hrq) as (_ & Hem & _ & Hpg).
  destruct w as [s ls ps sn]. cbn [state storage] in *.
  cbn [step handleChatwootMessage typeof JsType_eqb state].
  assert (stores_new_context s [SetChatwootData (JObj fs)] = true) as ->.
  { cbn. by destruct (chatwootData s). }
  unfold chatwootData_effect.
  cbn [commit fst snd state storage apply_updates fold_left apply_update chatwootData].
  rewrite Hmail. unfold fetchUsers_start.
  change (fetchUsers_request _ ls (contact_email (JObj fs)))
    with (fetchUsers_request s ls (contact_email (JObj fs))).
  rewrite Hrq. cbn -[contact_email]. done.
Qed.

(** X9.  A structured context message without a contact email (or with
    an empty one) is stored and does nothing else in the search view:
    no request, no change to the input field, the list, the error or
    the spinner. *)
Theorem X9_context_without_email_is_only_stored (w : World) (o : JsValue) :
  typeof o = TyObject →
  truthy (contact_email o) = false →
  let w' := step w (Message o) in
  chatwootData (state w') = o
  ∧ sent w' = sent w
  ∧ pending w' = pending w
  ∧ searchEmail (state w') = searchEmail (state w)
  ∧ users (state w') = users (state w)
  ∧ error (state w') = error (state w)
  ∧ loading (state w') = loading (state w).
Proof.
  intros Hobj Hmail. destruct w as [s ls ps sn].
  cbn [step]. unfold handleChatwootMessage.
  assert (match o with
          | JStr m => JSON_parse m
          | _ => if JsType_eqb (typeof o) TyObject then Some o else None
          end = Some o) as ->.
  { destruct o; try discriminate Hobj; reflexivity. }
  destruct (stores_new_context _ _); [|done].
  unfold chatwootData_effect.
  cbn [commit fst snd state storage apply_updates fold_left apply_update chatwootData].
  rewrite Hmail. done.
Qed.

End SearchMessages.

(** ** Further properties of the detail view *)

Section DetailOutcomes.
Import Dashboard.

(** X10.  A detail resolution whose customers request finds at least
    one customer and whose orders request succeeds shows the first
    customer returned and the orders exactly as returned: two requests
    are sent, the second for that customer's id, no error is reported
    and an earlier search error is cleared. *)
Theorem X10_found_customer_is_shown_with_its_orders
    (ls : Storage) (email : JsValue) (c : Credentials)
    (first : WooCommerceCustomer) (rest : list WooCommerceCustomer)
    (os : list WooCommerceOrder)
    (orders_api : Request → HttpResult (list WooCommerceOrder)) (s : State) :
  search_request ls email = inr c →
  orders_api (GetOrders c (id first)) = Resolved os →
  let out := searchWooCommerceData ls email (Resolved (first :: rest)) orders_api in
  let s' := apply_updates s (fst out) in
  snd out = [GetCustomers c email; GetOrders c (id first)]
  ∧ reports_of (fst out) = []
  ∧ customer s' = Some first
  ∧ orders s' = os
  ∧ searchError s' = None
  ∧ renderWooCommerceData s' = ShowCustomer first os.
Proof.
  intros Hc Hos. unfold searchWooCommerceData, search_start. rewrite Hc.
  cbn [search_customers_settled]. rewrite Hos. done.
Qed.

(** X11.  A detail resolution whose customers request returns no
    customer is not an error: the customer and the orders shown before
    are cleared, an earlier search error is cleared, nothing is
    reported, no orders request is sent and the panel shows "no
    customer found". *)
Theorem X11_no_customer_clears_the_panel
    (ls : Storage) (email : JsValue) (c : Credentials)
    (orders_api : Request → HttpResult (list WooCommerceOrder)) (s : State) :
  search_request ls email = inr c →
  let out := searchWooCommerceData ls email (Resolved []) orders_api in
  let s' := apply_updates s (fst out) in
  snd out = [GetCustomers c email]
  ∧ reports_of (fst out) = []
  ∧ customer s' = None
  ∧ orders s' = []
  ∧ searchError s' = None
  ∧ renderWooCommerceData s' = ShowNoCustomer.
Proof.
  intros Hc. unfold searchWooCommerceData, search_start. rewrite Hc. done.
Qed.


End DetailOutcomes.

Section DetailMessages.
Import Dashboard.
Context {P : JsonParser}.

Lemma search_request_read_from ls email c :
  search_request ls email = inr c → read_from ls c.
Proof.
  unfold search_request.
  destruct (ls !! "woocommerce_url") as [url|] eqn:Hu; [|done].
  destruct (ls !! "woocommerce_consumer_key") as [key|] eqn:Hk;
    [|by rewrite orb_true_r].
  destruct (ls !! "woocommerce_consumer_secret") as [secret|] eqn:Hs;
    [|by rewrite orb_true_r].
  cbn [missing default].
  destruct (String.eqb url "") eqn:Eu; [done|].
  destruct (String.eqb key "") eqn:Ek; [done|].
  destruct (String.eqb secret "") eqn:Es; [done|].
  cbn. intros [= <-]. apply String.eqb_neq in Eu, Ek, Es. done.
Qed.

Lemma search_start_cases ls email :
  (∃ c, search_request ls email = inr c
        ∧ search_start ls email = ([SetSearchError None], Some (c, GetCustomers c email)))
  ∨ search_start ls email
    = ([SetSearchError None; SetSearchError (Some SearchFailed)], None).
Proof.
  unfold search_start. destruct (search_request ls email) as [err|c]; [by right|].
  left. by exists c.
Qed.



(** X15.  A payload that is neither text nor a structured value, or
    text that [JSON.parse] refuses, is answered in both views by the
    "failed to process" error and nothing else: the stored context, the
    results on display and the requests sent stay as they were (the
    detail view also ends its loading state). *)
Theorem X15_refused_payload_only_sets_the_error
    (wd : World) (wu : UserSearch.World) (data : JsValue) :
  (typeof data ≠ TyString ∧ typeof data ≠ TyObject)
  ∨ (∃ m, data = JStr m ∧ JSON_parse m = None) →
  (let w' := step wd (Message data) in
   error (state w') = Some ProcessFailed
   ∧ reported w' = reported wd ++ [BridgeReport ProcessFailed]
   ∧ isLoading (state w') = false
   ∧ chatwootData (state w') = chatwootData (state wd)
   ∧ customer (state w') = customer (state wd)
   ∧ orders (state w') = orders (state wd)
   ∧ searchError (state w') = searchError (state wd)
   ∧ sent w' = sent wd ∧ pending w' = pending wd)
  ∧ (let w' := UserSearch.step wu (UserSearch.Message data) in
     UserSearch.error (UserSearch.state w') = Some UserSearch.ProcessFailed
     ∧ UserSearch.chatwootData (UserSearch.state w')
       = UserSearch.chatwootData (UserSearch.state wu)
     ∧ UserSearch.users (UserSearch.state w') = UserSearch.users (UserSearch.state wu)
     ∧ UserSearch.searchEmail (UserSearch.state w')
       = UserSearch.searchEmail (UserSearch.state wu)
     ∧ UserSearch.sent w' = UserSearch.sent wu
     ∧ UserSearch.pending w' = UserSearch.pending wu).
Proof.
  intros Hbad.
  assert (match data with
          | JStr m => JSON_parse m
          | _ => if JsType_eqb (typeof data) TyObject then Some data else None
          end = None) as Hnone.
  { destruct Hbad as [[Hs Ho] | (m & -> & Hm)]; [|done].
    destruct data; cbn in *; congruence. }
  split.
  - cbn [step]. unfold handleChatwootMessage. rewrite Hnone. done.
  - cbn [UserSearch.step]. unfold UserSearch.handleChatwootMessage. rewrite Hnone. done.
Qed.

End DetailMessages.

Section DetailExecutions.
Import Dashboard.
Context {P : JsonParser}.

Lemma detail_run_invariant (I : World → Prop) :
  (∀ w ev, I w → I (step w ev)) → ∀ evs w, I w → I (run w evs).
Proof.
  intros Hstep evs. induction evs as [|ev evs IH]; intros w Hw; [done|].
  apply IH, Hstep, Hw.
Qed.

Lemma timeouts_reported_app (rs rs' : list Report) :
  timeouts_reported (rs ++ rs') = (timeouts_reported rs + timeouts_reported rs')%nat.
Proof. unfold timeouts_reported. by rewrite List.filter_app, length_app. Qed.

(** What one event can do to the three logs and to the armed timers. *)
Lemma detail_step_summary (w : World) (ev : Event) :
  let w' := step w ev in
  storage w' = storage w
  ∧ (∃ new, reported w' = reported w ++ new
            ∧ ((timeouts_reported new = 0%nat
                ∧ (timers w' = timers w ∧ posts w' = posts w
                   ∨ ∃ v p, timers w' = timers w ++ [v] ∧ posts w' = posts w ++ [p]))
               ∨ ((timeouts_reported new ≤ 1)%nat ∧ posts w' = posts w
                  ∧ ∃ i v, timers w !! i = Some v ∧ timers w' = delete i (timers w))))
  ∧ (sent w' = sent w
     ∧ (pending w' = pending w ∨ ∃ i, pending w' = delete i (pending w))
     ∨ (∃ c email, search_request (storage w) email = inr c
                   ∧ sent w' = sent w ++ [GetCustomers c email]
                   ∧ pending w' = pending w ++ [AwaitCustomers c])
     ∨ (∃ i c customer_id, pending w !! i = Some (AwaitCustomers c)
                           ∧ sent w' = sent w ++ [GetOrders c customer_id]
                           ∧ pending w' = <[i := AwaitOrders]> (pending w))).
Proof.
  destruct w as [s ls ps ts sn po rp]. destruct ev as [data|throws|i|i res|i res].
  - (* Message *)
    cbn [step]. unfold handleChatwootMessage.
    set (eventData := match data with JStr m => JSON_parse m | _ => _ end).
    destruct eventData as [v|]; cbn -[chatwootData_effect].
    2:{ split_and!; [done | | left; auto].
        eexists. split; [done|]. left. split; [done | by left]. }
    destruct (same_value (chatwootData s) v); cbn -[chatwootData_effect].
    1:{ rewrite app_nil_r. split_and!; [done | quiet_step | left; auto]. }
    unfold chatwootData_effect. cbn [chatwootData].
    destruct (truthy (contact_email v)).
    2:{ cbn. rewrite !app_nil_r. split_and!; [done | quiet_step | left; auto]. }
    destruct (search_start_cases ls (contact_email v)) as [(c & Hc & ->) | ->].
    + cbn. rewrite !app_nil_r. split_and!; [done | quiet_step |].
      right. left. by exists c, (contact_email v).
    + cbn. rewrite !app_nil_r. split_and!; [done | | left; auto].
      eexists. split; [done|]. left. split; [done | by left].
  - (* ClickFetch *)
    cbn [step state]. destruct (isLoading s).
    { split_and!; [done | quiet_step | left; auto]. }
    destruct throws; cbn; rewrite ?app_nil_r.
    + split_and!; [done | | left; auto].
      eexists. split; [done|]. left. split; [done | by left].
    + split_and!; [done | | left; auto].
      exists []. split; [by rewrite app_nil_r|]. left. split; [done|].
      right. by eexists _, _.
  - (* Timeout *)
    cbn [step timers]. destruct (ts !! i) as [captured|] eqn:Hi.
    2:{ split_and!; [done | quiet_step | left; auto]. }
    unfold timeout_callback. destruct (truthy captured); cbn;
      (split_and!; [done | | left; auto]);
      (eexists; split; [done|]; right; split_and!;
       [cbn; lia | done | by exists i, captured]).
  - (* SettleCustomers *)
    cbn [step pending].
    destruct (ps !! i) as [[c|]|] eqn:Hi;
      try (split_and!; [done | quiet_step | left; auto]).
    destruct res as [[|first rest]| |]; cbn; rewrite ?app_nil_r.
    + split_and!; [done | quiet_step | left; eauto].
    + split_and!; [done | quiet_step |]. right. right. by exists i, c, (id first).
    + split_and!; [done | | left; eauto].
      eexists. split; [done|]. left. split; [done | by left].
    + split_and!; [done | | left; eauto].
      eexists. split; [done|]. left. split; [done | by left].
  - (* SettleOrders *)
    cbn [step pending].
    destruct (ps !! i) as [[c|]|] eqn:Hi;
      try (split_and!; [done | quiet_step | left; auto]).
    destruct res as [os| |]; cbn; rewrite ?app_nil_r.
    + split_and!; [done | quiet_step | left; eauto].
    + split_and!; [done | | left; eauto].
      eexists. split; [done|]. left. split; [done | by left].
    + split_and!; [done | | left; eauto].
      eexists. split; [done|]. left. split; [done | by left].
Qed.

Lemma detail_requests_invariant (ls : Storage) (evs : list Event) :
  Forall (λ rq, read_from ls (credentials_of rq)) (sent (run (mount ls) evs)).
Proof.
  pose (I := λ w : World,
          storage w = ls
          ∧ Forall (λ rq, read_from ls (credentials_of rq)) (sent w)
          ∧ Forall (pending_read_from ls) (pending w)).
  assert (I (run (mount ls) evs)) as (_ & Hs & _); [|done].
  apply detail_run_invariant; [|by repeat split].
  intros w ev (Hls & Hs & Hp).
  destruct (detail_step_summary w ev) as (Hst & _ & Hsent).
  split; [congruence|].
  destruct Hsent as [[-> [-> | [i ->]]]
                    | [(c & email & Hc & -> & ->)
                      | (i & c & cid & Hi & -> & ->)]].
  - done.
  - split; [done | by apply Forall_delete].
  - apply search_request_read_from in Hc. rewrite Hls in Hc.
    split; apply Forall_app; split; try done; by apply Forall_singleton.
  - pose proof (Forall_lookup_1 _ _ _ _ Hp Hi) as Hc. cbn in Hc.
    split; [apply Forall_app; split; [done | by apply Forall_singleton]|].
    by apply Forall_insert.
Qed.

(** X16.  In every execution of the detail view, every request it has
    sent, for customers or for orders, carries the three settings of
    [localStorage], each present and non-empty. *)
Theorem X16_detail_requests_carry_the_settings (ls : Storage) (evs : list Event) :
  Forall (λ rq, read_from ls (credentials_of rq)) (sent (run (mount ls) evs)).
Proof. apply detail_requests_invariant. Qed.

(** X17.  While one of the three settings is missing or empty, no
    execution of the detail view sends any request: whatever the host
    sends and whatever is clicked. *)
Theorem X17_unconfigured_detail_view_sends_nothing (ls : Storage) (evs : list Event) :
  missing (ls !! "woocommerce_url")
  || missing (ls !! "woocommerce_consumer_key")
  || missing (ls !! "woocommerce_consumer_secret") = true →
  sent (run (mount ls) evs) = [].
Proof.
  intros Hmiss. pose proof (detail_requests_invariant ls evs) as Hall.
  destruct (sent (run (mount ls) evs)) as [|rq rest]; [done|]. exfalso.
  apply Forall_cons in Hall as [(Hu & Hk & Hs & Nu & Nk & Ns) _].
  rewrite Hu, Hk, Hs in Hmiss. cbn in Hmiss.
  apply String.eqb_neq in Nu, Nk, Ns. by rewrite Nu, Nk, Ns in Hmiss.
Qed.

(** X18.  In every execution of the detail view, the timeout text has
    been reported at most once per context request posted to the host:
    the reports so far and the timers still armed together never exceed
    the requests posted. *)
Theorem X18_one_timeout_report_per_request_at_most (ls : Storage) (evs : list Event) :
  (timeouts_reported (reported (run (mount ls) evs))
   + List.length (timers (run (mount ls) evs))
   ≤ List.length (posts (run (mount ls) evs)))%nat.
Proof.
  pose (I := λ w : World,
          (timeouts_reported (reported w) + List.length (timers w)
           ≤ List.length (posts w))%nat).
  apply (detail_run_invariant I); [|by cbv].
  intros w ev Hw. unfold I in *.
  destruct (detail_step_summary w ev) as (_ & (new & -> & Hnew) & _).
  rewrite timeouts_reported_app.
  destruct Hnew as [[-> [[-> ->] | (v & p & -> & ->)]]
                   | (Hle & -> & i & v & Hi & ->)].
  - lia.
  - rewrite !length_app. cbn. lia.
  - rewrite length_delete by eauto.
    apply lookup_lt_Some in Hi. lia.
Qed.

End DetailExecutions.

(** ** The further properties on concrete executions *)

Lemma X3_first_page_witness :
  UserSearch.users
    (UserSearch.state
       (UserSearch.run (H := Json.parser)
          (UserSearch.run (H := Json.parser) (UserSearch.mount configured)
             [UserSearch.Typing "a@b.com"])
          [UserSearch.Submit;
           UserSearch.Settle 0 (Resolved (UserSearch.sample_page 1 3))]))
  = UserSearch.sample_page 1 3.
Proof.
  pose proof (@X3_submitted_search_shows_the_page Json.parser
                (UserSearch.run (H := Json.parser) (UserSearch.mount configured)
                   [UserSearch.Typing "a@b.com"])
                UserSearch.first_page_request (UserSearch.sample_page 1 3)) as H.
  destruct H as [Hshown _].
  - vm_compute. reflexivity.
  - discriminate.
  - exact Hshown.
Defined.

Lemma X4_overlapping_pages_witness :
  NoDup
    (UserSearch.ids
       (UserSearch.users
          (UserSearch.state
             (UserSearch.run (H := Json.parser) (UserSearch.mount configured)
                [UserSearch.Typing "a@b.com"; UserSearch.Submit;
                 UserSearch.Message scenario_context;
                 UserSearch.Settle 0 (Resolved (UserSearch.sample_page 1 3));
                 UserSearch.Settle 0 (Resolved (UserSearch.sample_page 3 2))])))).
Proof.
  apply (@X4_displayed_ids_stay_distinct Json.parser).
  - constructor.
  - repeat constructor; cbn; set_solver.
Defined.

Lemma X6_no_settings_witness :
  UserSearch.sent
    (UserSearch.run (H := Json.parser) (UserSearch.mount ∅)
       [UserSearch.Typing "a@b.com"; UserSearch.Submit;
        UserSearch.Message scenario_context; UserSearch.LoadMore])
  = [].
Proof.
  apply (@X6_unconfigured_view_sends_nothing Json.parser ∅). reflexivity.
Defined.

Lemma X7_settled_search_witness :
  UserSearch.loading
    (UserSearch.state
       (UserSearch.run (H := Json.parser) (UserSearch.mount configured)
          [UserSearch.Typing "a@b.com"; UserSearch.Submit;
           UserSearch.Settle 0 (RejectedWithResponse 401 "Unauthorized")]))
  = false.
Proof.
  apply (@X7_idle_view_is_not_loading Json.parser configured). reflexivity.
Defined.

Lemma X8_scenario_witness :
  UserSearch.sent
    (UserSearch.step (H := Json.parser) (UserSearch.mount configured)
       (UserSearch.Message scenario_context))
  = [UserSearch.first_page_request].
Proof.
  pose proof (@X8_context_email_starts_a_search Json.parser
                (UserSearch.mount configured) scenario_context
                UserSearch.first_page_request) as H.
  destruct H as (_ & _ & Hsent & _).
  - reflexivity.
  - reflexivity.
  - vm_compute. reflexivity.
  - exact Hsent.
Defined.

Lemma X9_event_only_witness :
  UserSearch.sent
    (UserSearch.step (H := Json.parser) (UserSearch.mount configured)
       (UserSearch.Message (JObj [("event", JStr "appContext")])))
  = []
  ∧ UserSearch.chatwootData
      (UserSearch.state
         (UserSearch.step (H := Json.parser) (UserSearch.mount configured)
            (UserSearch.Message (JObj [("event", JStr "appContext")]))))
    = JObj [("event", JStr "appContext")].
Proof.
  pose proof (@X9_context_without_email_is_only_stored Json.parser
                (UserSearch.mount configured)
                (JObj [("event", JStr "appContext")])) as H.
  destruct H as (Hctx & Hsent & _).
  - reflexivity.
  - reflexivity.
  - split; [exact Hsent | exact Hctx].
Defined.

Lemma X10_three_orders_witness :
  Dashboard.renderWooCommerceData
    (Dashboard.apply_updates Dashboard.initial
       (fst (Dashboard.searchWooCommerceData configured (JStr "a@b.com")
               (Resolved [Dashboard.customer_7]) Dashboard.orders_up)))
  = Dashboard.ShowCustomer Dashboard.customer_7 Dashboard.three_orders.
Proof.
  pose proof (X10_found_customer_is_shown_with_its_orders configured (JStr "a@b.com")
                Dashboard.shop Dashboard.customer_7 [] Dashboard.three_orders
                Dashboard.orders_up Dashboard.initial) as H.
  destruct H as (_ & _ & _ & _ & _ & Hpanel).
  - vm_compute. reflexivity.
  - reflexivity.
  - exact Hpanel.
Defined.

Lemma X11_not_found_witness :
  Dashboard.renderWooCommerceData
    (Dashboard.apply_updates Dashboard.initial
       (fst (Dashboard.searchWooCommerceData configured (JStr "a@b.com")
               (Resolved []) Dashboard.orders_up)))
  = Dashboard.ShowNoCustomer.
Proof.
  pose proof (X11_no_customer_clears_the_panel configured (JStr "a@b.com")
                Dashboard.shop Dashboard.orders_up Dashboard.initial) as H.
  destruct H as (_ & _ & _ & _ & _ & Hpanel).
  - vm_compute. reflexivity.
  - exact Hpanel.
Defined.



Lemma X15_broken_text_witness :
  Dashboard.error
    (Dashboard.state
       (Dashboard.step (H := Json.parser) (Dashboard.mount configured)
          (Dashboard.Message (JStr "{oops"))))
  = Some Dashboard.ProcessFailed
  ∧ UserSearch.error
      (UserSearch.state
         (UserSearch.step (H := Json.parser) (UserSearch.mount configured)
            (UserSearch.Message (JStr "{oops"))))
    = Some UserSearch.ProcessFailed.
Proof.
  pose proof (@X15_refused_payload_only_sets_the_error Json.parser
                (Dashboard.mount configured) (UserSearch.mount configured)
                (JStr "{oops")) as H.
  destruct H as [(Hd & _) (Hu & _)].
  - right. exists "{oops". split; reflexivity.
  - split; [exact Hd | exact Hu].
Defined.

Lemma X17_no_settings_witness :
  Dashboard.sent
    (Dashboard.run (H := Json.parser) (Dashboard.mount ∅)
       [Dashboard.ClickFetch false; Dashboard.Message scenario_context;
        Dashboard.Timeout 0])
  = [].
Proof.
  apply (@X17_unconfigured_detail_view_sends_nothing Json.parser ∅). reflexivity.
Defined.
